(** * VersionInferrer: the evidence model and the retrieval pipeline

    A shallow embedding of [analysis/guess.py] and [analysis/resource.py].

    Conventions of the embedding:
    - a Python [set] is a duplicate-free list (its iteration order);
    - [Guess] reads the idf weights and the two match weights as exact
      rationals ([Q]), compared with [==]: that is enough for the order of
      guesses and for counting; [Guess64] has the same sums on the numbers
      that Python computes with, IEEE 754 binary64, where rounding and the
      order of the additions count;
    - a Python [str] is a [string] whose characters are the code points
      below 256;
    - an attribute that may be absent ([hasattr]) is an [option];
    - a method of [Resource] is a function from the object and the world
      (the shared cache dictionaries and the log of network calls) to an
      outcome, the new object and the new world. *)

From Stdlib Require Import QArith ZArith List Lia Floats.
From Stdlib.Strings Require Import Ascii String Byte.
From stdpp Require Import gmap strings list.

Local Open Scope string_scope.
Set Warnings "-inexact-float".

(** ** Python sets as duplicate-free lists *)

Module PySet.

Section Ops.
Context {A : Type} `{EqDecision A}.

(** [x in s] *)
Definition mem (x : A) (s : list A) : bool := bool_decide (x ∈ s).

(** [s.add(x)]: nothing happens when [x] is already a member. *)
Definition add (x : A) (s : list A) : list A :=
  if mem x s then s else s ++ [x].

Fixpoint remove_first (x : A) (s : list A) : list A :=
  match s with
  | [] => []
  | y :: t => if decide (x = y) then t else y :: remove_first x t
  end.

(** [s.remove(x)]: [KeyError] ([None]) when [x] is not a member. *)
Definition remove (x : A) (s : list A) : option (list A) :=
  if mem x s then Some (remove_first x s) else None.

(** [s.update(t)] *)
Definition update (s t : list A) : list A := fold_left (fun acc x => add x acc) t s.

(** [bool(s)] *)
Definition truthy (s : list A) : bool :=
  match s with [] => false | _ => true end.
End Ops.

End PySet.

(** ** The backend's model classes (only their fields are used here) *)

Record SoftwarePackage := { package_name : string }.

Record SoftwareVersion := {
  version_name : string;
  software_package : SoftwarePackage
}.

(** An asset: an object (told apart by [asset_id]) carrying its weight. *)
Record Asset := { asset_id : nat; idf_weight : Q }.

#[global] Instance SoftwarePackage_eq_dec : EqDecision SoftwarePackage.
Proof. solve_decision. Defined.

#[global] Instance SoftwareVersion_eq_dec : EqDecision SoftwareVersion.
Proof. solve_decision. Defined.

#[global] Instance Q_eq_dec : EqDecision Q.
Proof. solve_decision. Defined.

#[global] Instance Asset_eq_dec : EqDecision Asset.
Proof. solve_decision. Defined.

(** ** analysis/guess.py *)

Module Guess.

Record t := {
  software_version : SoftwareVersion;
  positive_matches : list Asset;
  negative_matches : list Asset
}.

(** [Guess.__init__]: an argument that is [None] or an empty set leaves the
    fresh empty set in place; any other set is stored as it is. *)
Definition init (sv : SoftwareVersion)
    (positive negative : option (list Asset)) : t :=
  {| software_version := sv;
     positive_matches :=
       match positive with
       | Some s => if PySet.truthy s then s else []
       | None => []
       end;
     negative_matches :=
       match negative with
       | Some s => if PySet.truthy s then s else []
       | None => []
       end |}.

(** [guess.positive_matches.add(asset)], the way evidence is added. *)
Definition add_positive (a : Asset) (g : t) : t :=
  {| software_version := software_version g;
     positive_matches := PySet.add a (positive_matches g);
     negative_matches := negative_matches g |}.

Definition add_negative (a : Asset) (g : t) : t :=
  {| software_version := software_version g;
     positive_matches := positive_matches g;
     negative_matches := PySet.add a (negative_matches g) |}.

(** [sum(asset.idf_weight for asset in s)]: starts at 0, adds in order. *)
Definition sum_idf (s : list Asset) : Q :=
  fold_left (fun acc a => (acc + idf_weight a)%Q) s 0%Q.

(** The sum of the weights of a set, as the specification words it; the
    theorems compare [sum_idf] with it. *)
Fixpoint spec_weight_sum (s : list Asset) : Q :=
  match s with
  | [] => 0%Q
  | a :: rest => (idf_weight a + spec_weight_sum rest)%Q
  end.

Definition negative_strength (g : t) : Q := sum_idf (negative_matches g).

Definition positive_strength (g : t) : Q := sum_idf (positive_matches g).

Section Weights.
(** The two weights of [settings], which the module imports. *)
Variables POSITIVE_MATCH_WEIGHT NEGATIVE_MATCH_WEIGHT : Q.

Definition strength (g : t) : Q :=
  (POSITIVE_MATCH_WEIGHT * positive_strength g +
   NEGATIVE_MATCH_WEIGHT * negative_strength g)%Q.

(** [x < y] on numbers. *)
Definition num_lt (x y : Q) : bool := negb (Qle_bool y x).

Definition lt (a b : t) : bool := num_lt (strength a) (strength b).
Definition le (a b : t) : bool := Qle_bool (strength a) (strength b).
Definition eq (a b : t) : bool := Qeq_bool (strength a) (strength b).
Definition ge (a b : t) : bool := Qle_bool (strength b) (strength a).
Definition gt (a b : t) : bool := num_lt (strength b) (strength a).
End Weights.

(** Evidence arriving during an analysis, one asset at a time. *)
Inductive evidence :=
  | Positive (a : Asset)
  | Negative (a : Asset).

Definition add_evidence (g : t) (e : evidence) : t :=
  match e with
  | Positive a => add_positive a g
  | Negative a => add_negative a g
  end.

Definition add_all (g : t) (es : list evidence) : t :=
  fold_left add_evidence es g.

(** No asset is in both sets of the guess. *)
Definition disjoint_matches (g : t) : Prop :=
  forall a, a ∈ positive_matches g -> a ∉ negative_matches g.

(** The assets of the positive (negative) pieces of evidence, in order. *)
Definition positives (es : list evidence) : list Asset :=
  omap (fun e => match e with Positive a => Some a | Negative _ => None end) es.

Definition negatives (es : list evidence) : list Asset :=
  omap (fun e => match e with Negative a => Some a | Positive _ => None end) es.

(** The dictionary of [Guess.debug_serialize], one field per key. *)
Record debug_view := {
  debug_software_version : string;
  debug_software_package : string;
  debug_positive_matches : nat;
  debug_positive_strength : Q;
  debug_negative_matches : nat;
  debug_negative_strength : Q
}.

(** [Guess.debug_serialize] *)
Definition debug_serialize (g : t) : debug_view :=
  {| debug_software_version := version_name (software_version g);
     debug_software_package :=
       package_name (software_package (software_version g));
     debug_positive_matches := length (positive_matches g);
     debug_positive_strength := positive_strength g;
     debug_negative_matches := length (negative_matches g);
     debug_negative_strength := negative_strength g |}.

End Guess.

(** ** analysis/guess.py on machine numbers

    At run time [idf_weight] and the two match weights are Python floats.
    [sum] starts at the integer [0] and adds the weights one after the other,
    in the order in which the set yields them; [0 + x] is [0.0 + x]. Every
    addition and multiplication rounds to the nearest binary64 number. *)

Module Guess64.

Section Machine.
(** [asset.idf_weight], the float that the asset carries. *)
Variable idf_weight64 : Asset -> float.
Variables POSITIVE_MATCH_WEIGHT NEGATIVE_MATCH_WEIGHT : float.

(** [sum(asset.idf_weight for asset in s)]; [s] lists the set in the order
    of its iteration. *)
Definition sum_idf (s : list Asset) : float :=
  fold_left (fun acc a => (acc + idf_weight64 a)%float) s 0%float.

Definition negative_strength (g : Guess.t) : float :=
  sum_idf (Guess.negative_matches g).

Definition positive_strength (g : Guess.t) : float :=
  sum_idf (Guess.positive_matches g).

Definition strength (g : Guess.t) : float :=
  (POSITIVE_MATCH_WEIGHT * positive_strength g +
   NEGATIVE_MATCH_WEIGHT * negative_strength g)%float.
End Machine.

(** [s.add(a)] on a set given by its iteration order: a member is left
    where it is; a new element goes where the hash table puts it, and the
    table may be rebuilt, so that afterwards the set yields the old elements
    and the new one in some order. *)
Definition set_add (a : Asset) (s s' : list Asset) : Prop :=
  if PySet.mem a s then s' = s else s' ≡ₚ a :: s.

(** [guess.positive_matches.add(asset)] takes [g] to [g']. *)
Definition add_positive (a : Asset) (g g' : Guess.t) : Prop :=
  Guess.software_version g' = Guess.software_version g /\
  set_add a (Guess.positive_matches g) (Guess.positive_matches g') /\
  Guess.negative_matches g' = Guess.negative_matches g.

End Guess64.

(** ** Python strings and bytes, as far as the module uses them *)

Module PyStr.

(** [s[:n]] *)
Fixpoint take (n : nat) (s : string) : string :=
  match n, s with
  | S n', String c s' => String c (take n' s')
  | _, _ => ""
  end.

(** [s[n:]] *)
Fixpoint drop (n : nat) (s : string) : string :=
  match n, s with
  | S n', String _ s' => drop n' s'
  | _, _ => s
  end.

(** [s[-n:]] for [n > 0]: the whole string when it is shorter than [n]. *)
Definition last (n : nat) (s : string) : string :=
  drop (String.length s - n) s.

(** [sep.join(parts)] *)
Fixpoint join (sep : string) (parts : list string) : string :=
  match parts with
  | [] => ""
  | [p] => p
  | p :: rest => p +:+ sep +:+ join sep rest
  end.

(** [bool(s)] *)
Definition truthy (s : string) : bool :=
  match s with "" => false | _ => true end.

Definition code (c : ascii) : N := N_of_ascii c.

(** [c.isspace()] on the code points below 256. *)
Definition is_space (c : ascii) : bool :=
  let n := code c in
  ((9 <=? n) && (n <=? 13) || (28 <=? n) && (n <=? 32) ||
   (n =? 133) || (n =? 160))%N.

(** [c.lower()] on the code points below 256. *)
Definition lower_char (c : ascii) : ascii :=
  let n := code c in
  if ((65 <=? n) && (n <=? 90) ||
      (192 <=? n) && (n <=? 222) && negb (n =? 215))%N
  then ascii_of_N (n + 32) else c.

Fixpoint lower (s : string) : string :=
  match s with
  | "" => ""
  | String c s' => String (lower_char c) (lower s')
  end.

Fixpoint lstrip (s : string) : string :=
  match s with
  | "" => ""
  | String c s' => if is_space c then lstrip s' else s
  end.

Fixpoint rstrip (s : string) : string :=
  match s with
  | "" => ""
  | String c s' =>
      match rstrip s' with
      | "" => if is_space c then "" else String c ""
      | r => String c r
      end
  end.

(** [s.strip()] *)
Definition strip (s : string) : string := rstrip (lstrip s).

(** [s.split()]: the maximal runs of characters that are not whitespace;
    [cur] is the run being read. *)
Fixpoint split_from (cur : string) (s : string) : list string :=
  match s with
  | "" => if truthy cur then [cur] else []
  | String c s' =>
      if is_space c
      then (if truthy cur then cur :: split_from "" s' else split_from "" s')
      else split_from (cur +:+ String c "") s'
  end.

Definition split (s : string) : list string := split_from "" s.

(** [s.startswith(p)] *)
Definition startswith (p s : string) : bool := String.prefix p s.

(** [s.endswith(p)] *)
Definition endswith (p s : string) : bool :=
  (String.length p <=? String.length s)%nat &&
  bool_decide (last (String.length p) s = p).

(** [needle in hay] *)
Fixpoint contains (needle hay : string) : bool :=
  String.prefix needle hay ||
  match hay with
  | "" => false
  | String _ hay' => contains needle hay'
  end.

(** [s.encode()] (UTF-8) on the code points below 256. *)
Fixpoint encode (s : string) : list Byte.byte :=
  match s with
  | "" => []
  | String c s' =>
      let n := code c in
      if (n <? 128)%N then byte_of_ascii c :: encode s'
      else byte_of_ascii (ascii_of_N (192 + n / 64))
           :: byte_of_ascii (ascii_of_N (128 + n mod 64))
           :: encode s'
  end.

Definition hex_digit (n : N) : ascii :=
  if (n <? 10)%N then ascii_of_N (48 + n) else ascii_of_N (87 + n).

(** [b.hex()] *)
Fixpoint hex (b : list Byte.byte) : string :=
  match b with
  | [] => ""
  | x :: b' =>
      let n := Byte.to_N x in
      String (hex_digit (n / 16)) (String (hex_digit (n mod 16)) (hex b'))
  end.

(** [os.path.join(a, *p)] of [posixpath]. *)
Definition os_path_join (a : string) (p : list string) : string :=
  fold_left
    (fun path b =>
       if startswith "/" b then b
       else if negb (truthy path) || endswith "/" path then path +:+ b
       else path +:+ "/" +:+ b)
    p a.

(** [p[:p.rfind('/') + 1]] *)
Fixpoint upto_last_slash (p : string) : string :=
  match p with
  | "" => ""
  | String c p' =>
      match upto_last_slash p' with
      | "" => if Ascii.eqb c "/" then "/" else ""
      | head => String c head
      end
  end.

(** [head == '/' * len(head)] *)
Fixpoint all_slashes (head : string) : bool :=
  match head with
  | "" => true
  | String c head' => Ascii.eqb c "/" && all_slashes head'
  end.

(** [head.rstrip('/')] *)
Fixpoint rstrip_slashes (head : string) : string :=
  match head with
  | "" => ""
  | String c head' =>
      match rstrip_slashes head' with
      | "" => if Ascii.eqb c "/" then "" else String c ""
      | r => String c r
      end
  end.

(** [os.path.dirname(p)] of [posixpath]. *)
Definition os_path_dirname (p : string) : string :=
  let head := upto_last_slash p in
  if truthy head && negb (all_slashes head) then rstrip_slashes head else head.

End PyStr.

(** ** analysis/resource.py *)

(** What [requests.get] returns, as far as the module reads it. *)
Module Response.
Record t := {
  content : list Byte.byte;
  url : string;
  status_code : Z
}.
End Response.

Inductive exn :=
  | RetrievalFailure
  | TypeError
  | KeyError
  | AttributeError
  | ValueError
  | OSError.

Inductive result (A : Type) :=
  | Ok (a : A)
  | Raise (e : exn).
Arguments Ok {A} a.
Arguments Raise {A} e.

(** The world around a [Resource]: the dictionaries that caches point to
    (a cache is shared by reference, so the object holds its address), the
    urls fetched so far (one entry per [requests.get] call, latest last) and
    the files written by [persist]. *)
Record World := {
  dicts : nat -> gmap string Response.t;
  net_calls : list string;
  files : gmap string (list Byte.byte)
}.

(** The world after one more call of [requests.get] for [u]. *)
Definition after_call (u : string) (w : World) : World :=
  {| dicts := dicts w; net_calls := net_calls w ++ [u]; files := files w |}.

(** The world after [d[u] = r] on the dictionary at address [c]. *)
Definition after_setitem (c : nat) (u : string) (r : Response.t) (w : World) : World :=
  {| dicts := fun c' =>
       if decide (c' = c) then <[u := r]> (dicts w c) else dicts w c';
     net_calls := net_calls w;
     files := files w |}.

(** The world after [bytes] were written to the file at [p]. *)
Definition after_write (p : string) (bytes : list Byte.byte) (w : World) : World :=
  {| dicts := dicts w; net_calls := net_calls w; files := <[p := bytes]> (files w) |}.

Module Resource.

(** The instance attributes; [_response] and [_success] exist only once
    they have been assigned. *)
Record t := {
  url : string;
  cache : option nat;
  _response : option Response.t;
  _success : option bool
}.

(** [Resource.__init__] *)
Definition init (url : string) (cache : option nat) : t :=
  {| url := url; cache := cache; _response := None; _success := None |}.

(** A method body: it may raise, and what it did before raising stays. *)
Definition M (A : Type) : Type := t -> World -> result A * t * World.

#[global] Instance M_ret : MRet M := fun A a self w => (Ok a, self, w).

#[global] Instance M_bind : MBind M := fun A B f m self w =>
  match m self w with
  | (Ok a, self', w') => f a self' w'
  | (Raise e, self', w') => (Raise e, self', w')
  end.

Definition raise {A} (e : exn) : M A := fun self w => (Raise e, self, w).

(** Attribute reads and writes. *)
Definition get_url : M string := fun self w => (Ok (url self), self, w).

Definition get_response : M Response.t := fun self w =>
  match _response self with
  | Some r => (Ok r, self, w)
  | None => (Raise AttributeError, self, w)
  end.

Definition get_success : M bool := fun self w =>
  match _success self with
  | Some b => (Ok b, self, w)
  | None => (Raise AttributeError, self, w)
  end.

Definition set_response (r : Response.t) : M unit := fun self w =>
  (Ok tt,
   {| url := url self; cache := cache self;
      _response := Some r; _success := _success self |}, w).

Definition set_success (b : bool) : M unit := fun self w =>
  (Ok tt,
   {| url := url self; cache := cache self;
      _response := _response self; _success := Some b |}, w).

(** [self.cache is not None and self.url in self.cache] *)
Definition cache_has_url : M bool := fun self w =>
  match cache self with
  | Some c => (Ok (bool_decide (is_Some (dicts w c !! url self))), self, w)
  | None => (Ok false, self, w)
  end.

(** [self.cache[self.url]] *)
Definition cache_getitem : M Response.t := fun self w =>
  match cache self with
  | Some c =>
      match dicts w c !! url self with
      | Some r => (Ok r, self, w)
      | None => (Raise KeyError, self, w)
      end
  | None => (Raise TypeError, self, w)
  end.

(** [self.cache[self.url] = r]: [None] does not support item assignment. *)
Definition cache_setitem (r : Response.t) : M unit := fun self w =>
  match cache self with
  | Some c =>
      (Ok tt, self, after_setitem c (url self) r w)
  | None => (Raise TypeError, self, w)
  end.

(** [hasattr(self, '_response') or hasattr(self, '_success')] *)
Definition retrieved : M bool := fun self w =>
  (Ok (bool_decide (is_Some (_response self)) ||
       bool_decide (is_Some (_success self))), self, w).

Section Network.
(** [requests_get n u]: what the [n+1]-th call of
    [requests.get(u, timeout=HTTP_TIMEOUT)] does: it returns a response, or
    ([None]) raises one of [HTTPError], [RequestException], [UnicodeError],
    the exceptions [retrieve] catches. *)
Variable requests_get : nat -> string -> option Response.t.

Definition call_requests_get (u : string) : M (option Response.t) :=
  fun self w =>
    (Ok (requests_get (length (net_calls w)) u), self, after_call u w).

(** [Resource.retrieve] (logging left out) *)
Definition retrieve : M unit :=
  hit ← cache_has_url;
  if (hit : bool) then
    set_success true;;
    r ← cache_getitem;
    set_response r
  else
    u ← get_url;
    got ← call_requests_get u;
    match got with
    | None => set_success false
    | Some r =>
        set_response r;;
        r' ← get_response;
        cache_setitem r';;
        set_success true
    end;;
    ok ← get_success;
    if negb ok then mret tt
    else
      r ← get_response;
      if negb (Response.status_code r =? 200)%Z then mret tt else mret tt.

(** The guard every accessor starts with. *)
Definition ensure_retrieved : M unit :=
  done ← retrieved;
  if negb done then retrieve else mret tt.

Definition content : M (list Byte.byte) :=
  ensure_retrieved;;
  ok ← get_success;
  if negb ok then raise RetrievalFailure
  else r ← get_response; mret (Response.content r).

Definition final_url : M string :=
  ensure_retrieved;;
  ok ← get_success;
  if negb ok then raise RetrievalFailure
  else r ← get_response; mret (Response.url r).

Definition status_code : M Z :=
  ensure_retrieved;;
  ok ← get_success;
  if negb ok then raise RetrievalFailure
  else r ← get_response; mret (Response.status_code r).

(** [self._success and self.status_code == 200] *)
Definition success : M bool :=
  ensure_retrieved;;
  ok ← get_success;
  if (ok : bool) then code ← status_code; mret (code =? 200)%Z
  else mret false.
(** An accessor, an explicit [retrieve()], and the accessor again: the two
    outcomes and the world at the end. *)
Definition around_retrieve {A : Type} (accessor : M A) (self : t) (w : World)
    : result A * result A * World :=
  let '(before, self1, w1) := accessor self w in
  let '(_, self2, w2) := retrieve self1 w1 in
  let '(after, _, w3) := accessor self2 w2 in
  (before, after, w3).
End Network.


(** What [urllib.parse.urlparse] returns, as far as [persist] reads it. *)
Record ParseResult := {
  scheme : string;
  netloc : string;
  path : string
}.

Section Persist.
Variable requests_get : nat -> string -> option Response.t.
(** Library and helper functions that [persist] imports:
    [urllib.parse.urlparse], [base.utils.clean_path_name] and
    [base.checksum.calculate_checksum]. *)
Variable urlparse : string -> ParseResult.
Variable clean_path_name : string -> string.
Variable calculate_checksum : list Byte.byte -> list Byte.byte.
(** What is outside the program: whether [urlparse] raises its [ValueError]
    for a url ([urlparse] above is its result otherwise), and whether
    [os.makedirs(d, exist_ok=True)] and [open(p, 'wb')] raise an [OSError]
    ([FileExistsError], [IsADirectoryError], [PermissionError], ...) in the
    world as it is. *)
Variable urlparse_raises : string -> bool.
Variable makedirs_raises : string -> World -> bool.
Variable open_raises : string -> World -> bool.

(** [clean_path_name(parsed_url.path[1:]) or '__index__'] *)
Definition derived_name (u : string) : string :=
  let cleaned := clean_path_name (PyStr.drop 1 (path (urlparse u))) in
  if PyStr.truthy cleaned then cleaned else "__index__".

(** [path_name] as it stands after the length test. *)
Definition persist_path_name (u : string) : string :=
  let path_name := derived_name u in
  if (200 <? String.length path_name)%nat then
    PyStr.join "..."
      [PyStr.take 50 path_name;
       PyStr.hex (calculate_checksum (PyStr.encode path_name));
       PyStr.last 50 path_name]
  else path_name.

Definition persist_path (base_path u : string) : string :=
  let parsed_url := urlparse u in
  PyStr.os_path_join base_path
    [PyStr.join "_" [scheme parsed_url; netloc parsed_url];
     persist_path_name u].

(** [urlparse(u)] *)
Definition call_urlparse (u : string) : M ParseResult :=
  if urlparse_raises u then raise ValueError else mret (urlparse u).

(** [os.makedirs(d, exist_ok=True)]; the directories are not part of
    [files], which maps the path of a regular file to its bytes. *)
Definition os_makedirs (d : string) : M unit :=
  fun self w =>
    if makedirs_raises d w then (Raise OSError, self, w) else (Ok tt, self, w).

(** [with open(path, 'wb') as fdes: fdes.write(data)]: [open] raises or
    empties the file, then [data] is evaluated and written. *)
Definition write_file (p : string) (data : M (list Byte.byte)) : M unit :=
  fun self w =>
    if open_raises p w then (Raise OSError, self, w)
    else
      match data self w with
      | (Ok bytes, self', w') => (Ok tt, self', after_write p bytes w')
      | (Raise e, self', w') => (Raise e, self', after_write p [] w')
      end.

(** [Resource.persist] (logging left out) *)
Definition persist (base_path : string) : M unit :=
  done ← retrieved;
  skip ← (if negb done then mret true
          else ok ← success requests_get; mret (negb ok));
  if (skip : bool) then mret tt
  else
    u ← get_url;
    _ ← call_urlparse u;
    let p := persist_path base_path u in
    os_makedirs (PyStr.os_path_dirname p);;
    write_file p (content requests_get).
End Persist.



Section Extract.
(** The two queries of [settings.BACKEND] that the extraction uses; a
    set of versions is a duplicate-free list. *)
Variable retrieve_packages_by_name : string -> list SoftwarePackage.
Variable retrieve_versions : SoftwarePackage -> list SoftwareVersion.

(** The test of the inner loop:
    [components[1].lower().strip() not in version.name.lower().strip()] *)
Definition not_in_name (component : string) (version : SoftwareVersion) : bool :=
  negb (PyStr.contains (PyStr.strip (PyStr.lower component))
          (PyStr.strip (PyStr.lower (version_name version)))).

(** [for version in versions: if ...: matching_versions.remove(version)];
    [None] is the [KeyError] of [remove]. *)
Fixpoint narrow (component : string) (versions matching_versions : list SoftwareVersion)
    : option (list SoftwareVersion) :=
  match versions with
  | [] => Some matching_versions
  | version :: rest =>
      if not_in_name component version then
        match PySet.remove version matching_versions with
        | Some remaining => narrow component rest remaining
        | None => None
        end
      else narrow component rest matching_versions
  end.

(** One round of [for match in matches], up to [result.update]. *)
Definition matching_versions_of (components : list string) (pkg : SoftwarePackage)
    : option (list SoftwareVersion) :=
  let versions := retrieve_versions pkg in
  match components with
  | _ :: component :: _ =>
      match narrow component versions versions with
      | Some matching_versions =>
          if negb (PySet.truthy matching_versions) then Some versions
          else Some matching_versions
      | None => None
      end
  | _ => Some versions
  end.

Fixpoint update_all (components : list string) (matches : list SoftwarePackage)
    (result : list SoftwareVersion) : option (list SoftwareVersion) :=
  match matches with
  | [] => Some result
  | pkg :: rest =>
      match matching_versions_of components pkg with
      | Some matching_versions =>
          update_all components rest (PySet.update result matching_versions)
      | None => None
      end
  end.

(** [Resource._extract_generator_tag]; [generator_tags] is what
    [parsed.find_all('meta', {'name': 'generator'})] found, each tag given
    by its [content] attribute ([tag.get('content')]). *)
Definition _extract_generator_tag (generator_tags : list (option string))
    : option (list SoftwareVersion) :=
  match generator_tags with
  | [tag] =>
      match tag with
      | None => Some []
      | Some generator_tag =>
          if negb (PyStr.truthy generator_tag) then Some []
          else
            match PyStr.split generator_tag with
            | [] => Some []
            | first :: others =>
                let components := first :: others in
                update_all components (retrieve_packages_by_name first) []
            end
      end
  | _ => Some []
  end.
(** The narrowing as the specification words it: the versions of the
    package whose name contains the token (case-insensitive, trimmed), or
    all of its versions when there is none. *)
Definition spec_name_contains (token : string) (version : SoftwareVersion) : bool :=
  PyStr.contains (PyStr.strip (PyStr.lower token))
    (PyStr.strip (PyStr.lower (version_name version))).

Definition spec_versions_for (token : string) (pkg : SoftwarePackage)
    : list SoftwareVersion :=
  match List.filter (spec_name_contains token) (retrieve_versions pkg) with
  | [] => retrieve_versions pkg
  | narrowed => narrowed
  end.
End Extract.

Section Information.
Variable requests_get : nat -> string -> option Response.t.
Variable retrieve_packages_by_name : string -> list SoftwarePackage.
Variable retrieve_versions : SoftwarePackage -> list SoftwareVersion.
(** [bs4.BeautifulSoup] with [HTML_PARSER], and
    [parsed.find_all('meta', {'name': 'generator'})] with each tag read by
    [tag.get('content')]. *)
Variable Soup : Type.
Variable BeautifulSoup : list Byte.byte -> Soup.
Variable find_all_generator : Soup -> list (option string).
(** [analysis.wappalyzer_apps]: the apps, the package of an app and its
    [matches] method. *)
Variable App : Type.
Variable wappalyzer_apps : list App.
Variable app_software_package : App -> SoftwarePackage.
Variable app_matches : App -> Response.t -> bool.

(** [Resource._parse] *)
Definition _parse : M Soup :=
  bytes ← content requests_get;
  mret (BeautifulSoup bytes).

(** The loop of [_extract_wappalyzer_information]; [self._response] is read
    once for each app. *)
Fixpoint wappalyzer_loop (apps : list App) (version_matches : list SoftwareVersion)
    : M (list SoftwareVersion) :=
  match apps with
  | [] => mret version_matches
  | app :: rest =>
      r ← get_response;
      wappalyzer_loop rest
        (if app_matches app r
         then PySet.update version_matches
                (retrieve_versions (app_software_package app))
         else version_matches)
  end.

(** [Resource._extract_wappalyzer_information] (logging left out) *)
Definition _extract_wappalyzer_information : M (list SoftwareVersion) :=
  wappalyzer_loop wappalyzer_apps [].

(** [Resource.extract_information]; a [KeyError] of the generator-tag
    extraction propagates. *)
Definition extract_information : M (list SoftwareVersion) :=
  parsed ← _parse;
  match _extract_generator_tag retrieve_packages_by_name retrieve_versions
          (find_all_generator parsed) with
  | None => raise KeyError
  | Some from_tag =>
      let result := PySet.update [] from_tag in
      from_apps ← _extract_wappalyzer_information;
      mret (PySet.update result from_apps)
  end.
End Information.

(** The values of the dictionary that [serialize] returns. *)
Inductive pyvalue :=
  | PyStrValue (s : string)
  | PyBoolValue (b : bool)
  | PyIntValue (z : Z).

Section Serialize.
Variable requests_get : nat -> string -> option Response.t.
(** [urlparse], and whether it raises its [ValueError], as in [persist]. *)
Variable urlparse : string -> ParseResult.
Variable urlparse_raises : string -> bool.

(** [Resource.webroot_path] *)
Definition webroot_path : M string :=
  u ← get_url;
  parsed ← (if urlparse_raises u then raise ValueError else mret (urlparse u));
  mret (path parsed).

(** [Resource.serialize]: a dictionary, as the list of its items in the
    order of the literal; every [self.success] of the source is a call. *)
Definition serialize : M (list (string * pyvalue)) :=
  ok ← success requests_get;
  if negb ok then
    u ← get_url;
    wp ← webroot_path;
    ok' ← success requests_get;
    mret [("url", PyStrValue u); ("webroot_path", PyStrValue wp);
          ("success", PyBoolValue ok')]
  else
    u ← get_url;
    wp ← webroot_path;
    code ← status_code requests_get;
    ok' ← success requests_get;
    mret [("url", PyStrValue u); ("webroot_path", PyStrValue wp);
          ("status_code", PyIntValue code); ("success", PyBoolValue ok')].
End Serialize.

(** The object after an attempt that adopted the response [r], and after
    an attempt that failed. *)
Definition holding (u : string) (c : option nat) (r : Response.t) : t :=
  {| url := u; cache := c; _response := Some r; _success := Some true |}.

Definition failed (u : string) (c : option nat) (resp : option Response.t) : t :=
  {| url := u; cache := c; _response := resp; _success := Some false |}.

End Resource.

(** ** Concrete values used by the examples *)

Module Sample.

Definition wordpress : SoftwarePackage := {| package_name := "WordPress" |}.

Definition v54 : SoftwareVersion :=
  {| version_name := "5.4"; software_package := wordpress |}.

Definition v55 : SoftwareVersion :=
  {| version_name := "5.5"; software_package := wordpress |}.

Definition asset_x : Asset := {| asset_id := 0; idf_weight := 1 |}.

Definition asset_y : Asset := {| asset_id := 1; idf_weight := 3 # 2 |}.

Definition asset_z : Asset := {| asset_id := 7; idf_weight := 3 |}.

(** A guess whose positive set already holds [asset_x]. *)
Definition guess_x : Guess.t := Guess.init v54 (Some [asset_x]) None.

(** A guess built from two sets that share [asset_x]. *)
Definition guess_shared : Guess.t :=
  Guess.init v54 (Some [asset_x]) (Some [asset_x]).

(** A page served with status 200, and an error page. *)
Definition address : string := "http://h/x".

Definition body : list Byte.byte := [Byte.x68; Byte.x69].

Definition page : Response.t :=
  {| Response.content := body; Response.url := address;
     Response.status_code := 200 |}.

Definition error_page : Response.t :=
  {| Response.content := []; Response.url := address;
     Response.status_code := 404 |}.

(** Networks: one that always serves [page], one that always serves
    [error_page], one whose first call fails and whose later calls serve
    [page]. *)
Definition serving : nat -> string -> option Response.t :=
  fun _ _ => Some page.

Definition serving_error_page : nat -> string -> option Response.t :=
  fun _ _ => Some error_page.

Definition flaky : nat -> string -> option Response.t :=
  fun n _ => match n with O => None | S _ => Some page end.

(** Worlds: every dictionary empty, and dictionary 0 holding [page]. *)
Definition cold : World :=
  {| dicts := fun _ => ∅; net_calls := []; files := ∅ |}.

Definition warm : World :=
  {| dicts := fun c => if decide (c = O) then {[ address := page ]} else ∅;
     net_calls := [];
     files := ∅ |}.

(** Stand-ins for the helpers of [persist]: a parser that takes the whole
    string for the path, a cleaner that keeps every character, a two-byte
    checksum; and a path of 300 characters. *)
Definition path_only (u : string) : Resource.ParseResult :=
  {| Resource.scheme := "http"; Resource.netloc := "h"; Resource.path := u |}.

Definition keep_all (name : string) : string := name.

Definition short_checksum (data : list Byte.byte) : list Byte.byte :=
  [Byte.xab; Byte.xcd].



(** A backend that knows WordPress 5.4 and 5.5. *)
Definition packages_by_name (name : string) : list SoftwarePackage :=
  if String.eqb name "WordPress" then [wordpress] else [].

Definition versions_of (pkg : SoftwarePackage) : list SoftwareVersion :=
  if String.eqb (package_name pkg) "WordPress" then [v54; v55] else [].

(** Float weights: 0.1 for [asset_x], 0.2 for [asset_y], 0.3 for every
    other asset. *)
Definition weight64 (a : Asset) : float :=
  match asset_id a with
  | O => 0.1%float
  | S O => 0.2%float
  | _ => 0.3%float
  end.

(** A guess that holds [asset_x] and [asset_y] as positive matches. *)
Definition guess_xy : Guess.t := Guess.init v54 (Some [asset_x; asset_y]) None.

(** An outside world: a [urlparse] that rejects a url with one square
    bracket and not the other, a file system that refuses nothing and one
    that refuses everything. *)
Definition unbalanced_bracket (u : string) : bool :=
  xorb (PyStr.contains "[" u) (PyStr.contains "]" u).

Definition permits (p : string) (w : World) : bool := false.

Definition refuses (p : string) (w : World) : bool := true.



End Sample.

(** * Theorems *)

(** ** Sets *)

Section SetFacts.
Context {A : Type} `{EqDecision A}.

Lemma add_not_member (a : A) (s : list A) :
  a ∉ s -> PySet.add a s = (s ++ [a])%list.
Proof.
  intros H0. unfold PySet.add, PySet.mem.
  rewrite bool_decide_eq_false_2; auto.
Qed.

Lemma add_member (a : A) (s : list A) :
  a ∈ s -> PySet.add a s = s.
Proof.
  intros H0. unfold PySet.add, PySet.mem.
  rewrite bool_decide_eq_true_2; auto.
Qed.

Lemma elem_of_add (a b : A) (s : list A) :
  b ∈ PySet.add a s <-> b ∈ s \/ b = a.
Proof.
  destruct (decide (a ∈ s)) as [Hin|Hout].
  - rewrite add_member by assumption. split; [auto|].
    intros [H0| ->]; assumption.
  - rewrite add_not_member by assumption.
    rewrite elem_of_app, list_elem_of_singleton. tauto.
Qed.

Lemma elem_of_update (s t : list A) (x : A) :
  x ∈ PySet.update s t <-> x ∈ s \/ x ∈ t.
Proof.
  unfold PySet.update. revert s.
  induction t as [|y t IH]; intros s; simpl.
  - rewrite elem_of_nil. tauto.
  - rewrite IH, elem_of_add, elem_of_cons. tauto.
Qed.

Lemma elem_of_remove_first (v x : A) (m : list A) :
  NoDup m -> x ∈ PySet.remove_first v m <-> x ∈ m /\ x <> v.
Proof.
  induction m as [|y m IH]; intros Hnd; simpl.
  - rewrite elem_of_nil. tauto.
  - apply NoDup_cons in Hnd as [Hy Hnd].
    destruct (decide (v = y)) as [->|Hne].
    + rewrite elem_of_cons. split.
      * intros Hx. split; [auto|]. intros ->. contradiction.
      * intros [[->|Hx] Hxy]; [contradiction|assumption].
    + rewrite !elem_of_cons, (IH Hnd). split.
      * intros [->|[Hx Hxv]]; split; auto.
      * intros [[->|Hx] Hxv]; auto.
Qed.

Lemma NoDup_remove_first (v : A) (m : list A) :
  NoDup m -> NoDup (PySet.remove_first v m).
Proof.
  induction m as [|y m IH]; intros Hnd; simpl; [constructor|].
  apply NoDup_cons in Hnd as [Hy Hnd].
  destruct (decide (v = y)); [assumption|].
  apply NoDup_cons. split; [|auto].
  rewrite (elem_of_remove_first _ _ _ Hnd). tauto.
Qed.

End SetFacts.

(** ** The evidence model *)

Section GuessFacts.
Import Guess.
Local Open Scope Q_scope.

Lemma fold_sum_idf (s : list Asset) (q : Q) :
  fold_left (fun acc a => acc + idf_weight a) s q == q + spec_weight_sum s.
Proof.
  revert q. induction s as [|a s IH]; intros q; simpl.
  - ring.
  - rewrite IH. ring.
Qed.

Lemma sum_idf_spec (s : list Asset) : sum_idf s == spec_weight_sum s.
Proof. unfold sum_idf. rewrite fold_sum_idf. ring. Qed.

Lemma sum_idf_snoc (s : list Asset) (a : Asset) :
  sum_idf (s ++ [a]) == sum_idf s + idf_weight a.
Proof. unfold sum_idf. rewrite fold_left_app. simpl. reflexivity. Qed.

Lemma spec_weight_sum_perm (s s' : list Asset) :
  s ≡ₚ s' -> spec_weight_sum s == spec_weight_sum s'.
Proof.
  induction 1 as [|a s s' _ IH|a b s|s1 s2 s3 _ IH1 _ IH2]; simpl.
  - reflexivity.
  - rewrite IH. reflexivity.
  - ring.
  - rewrite IH1. exact IH2.
Qed.

Lemma num_lt_iff (x y : Q) : num_lt x y = true <-> x < y.
Proof.
  unfold num_lt. rewrite negb_true_iff. split.
  - intros H. apply Qnot_le_lt. intros Hle.
    apply Qle_bool_iff in Hle. congruence.
  - intros H. destruct (Qle_bool y x) eqn:E; [|reflexivity].
    apply Qle_bool_iff in E. exfalso. exact (Qlt_not_le _ _ H E).
Qed.
End GuessFacts.

Section GuessEvidence.
Import Guess.

Lemma init_positive sv pos neg :
  positive_matches (init sv pos neg) = default [] pos.
Proof. destruct pos as [[|a s]|]; reflexivity. Qed.

Lemma init_negative sv pos neg :
  negative_matches (init sv pos neg) = default [] neg.
Proof. destruct neg as [[|a s]|]; reflexivity. Qed.

Lemma add_all_snoc g es e :
  add_all g (es ++ [e]) = add_evidence (add_all g es) e.
Proof. unfold add_all. rewrite fold_left_app. reflexivity. Qed.

Lemma elem_of_add_all_positive g es a :
  a ∈ positive_matches (add_all g es) <->
  a ∈ positive_matches g \/ Positive a ∈ es.
Proof.
  induction es as [|e es IH] using rev_ind.
  - simpl. rewrite elem_of_nil. tauto.
  - rewrite add_all_snoc, elem_of_app, list_elem_of_singleton.
    destruct e as [b|b]; simpl.
    + rewrite elem_of_add, IH. split.
      * intros [[H|H]| ->]; auto.
      * intros [H|[H|H]]; auto. inversion H; auto.
    + rewrite IH. split.
      * intros [H|H]; auto.
      * intros [H|[H|H]]; auto. discriminate H.
Qed.

Lemma elem_of_add_all_negative g es a :
  a ∈ negative_matches (add_all g es) <->
  a ∈ negative_matches g \/ Negative a ∈ es.
Proof.
  induction es as [|e es IH] using rev_ind.
  - simpl. rewrite elem_of_nil. tauto.
  - rewrite add_all_snoc, elem_of_app, list_elem_of_singleton.
    destruct e as [b|b]; simpl.
    + rewrite IH. split.
      * intros [H|H]; auto.
      * intros [H|[H|H]]; auto. discriminate H.
    + rewrite elem_of_add, IH. split.
      * intros [[H|H]| ->]; auto.
      * intros [H|[H|H]]; auto. inversion H; auto.
Qed.
End GuessEvidence.

(** Adding in the order of arrival is one of the ways [set.add] can go. *)
Lemma add_positive_in_order (a : Asset) (g : Guess.t) :
  Guess64.add_positive a g (Guess.add_positive a g).
Proof.
  unfold Guess64.add_positive, Guess64.set_add. simpl.
  split; [reflexivity|]. split; [|reflexivity].
  unfold PySet.add. destruct (PySet.mem a (Guess.positive_matches g)); [reflexivity|].
  symmetry. apply Permutation_cons_append.
Qed.

(** With exact numbers the order of the additions does not count, and one
    more positive asset adds its weight times [POSITIVE_MATCH_WEIGHT]. *)
Lemma strength_add_exact (PW NW : Q) (g g' : Guess.t) (a : Asset) :
  Guess.positive_matches g' ≡ₚ a :: Guess.positive_matches g ->
  Guess.negative_matches g' = Guess.negative_matches g ->
  (Guess.strength PW NW g' == Guess.strength PW NW g + PW * idf_weight a)%Q.
Proof.
  intros Hp Hn. unfold Guess.strength, Guess.positive_strength, Guess.negative_strength.
  rewrite Hn, !sum_idf_spec, (spec_weight_sum_perm _ _ Hp). simpl. ring.
Qed.

(** C3 (as stated, refuted), on the numbers Python computes with; the
    weights of [asset_x], [asset_y] and [asset_z] are 0.1, 0.2 and 0.3 and
    [POSITIVE_MATCH_WEIGHT] is 0.1.
    - Adding [asset_x] to a guess that holds it leaves the guess as it is:
      the strength is not the old one plus 0.1 * 0.1.
    - Adding [asset_z] to a guess that holds [asset_x] and [asset_y]: in
      whichever order the three are iterated afterwards, the new strength
      (0.1 * 0.6 or 0.1 * 0.6000000000000001) is not the old one plus
      0.1 * 0.3 (0.060000000000000005). *)
Lemma strength_add_positive_counterexample :
  Guess64.add_positive Sample.asset_x Sample.guess_x Sample.guess_x /\
  PrimFloat.eqb
    (Guess64.strength Sample.weight64 0.1 (-1) Sample.guess_x)
    (Guess64.strength Sample.weight64 0.1 (-1) Sample.guess_x +
     0.1 * Sample.weight64 Sample.asset_x)%float = false /\
  forallb
    (fun order =>
       negb (PrimFloat.eqb
               (Guess64.strength Sample.weight64 0.1 (-1)
                  (Guess.init Sample.v54 (Some order) None))
               (Guess64.strength Sample.weight64 0.1 (-1) Sample.guess_xy +
                0.1 * Sample.weight64 Sample.asset_z)%float))
    (permutations [Sample.asset_x; Sample.asset_y; Sample.asset_z]) = true.
Proof.
  split; [|split].
  - unfold Guess64.add_positive, Guess64.set_add. repeat split.
  - vm_compute. reflexivity.
  - vm_compute. reflexivity.
Qed.

(** C3 (amended): [strength] is [POSITIVE_MATCH_WEIGHT] times the sum of the
    weights of the positive assets plus [NEGATIVE_MATCH_WEIGHT] times the sum
    of the weights of the negative assets, computed in floating point with
    the sums taken in the order of iteration. Adding an asset that the
    positive set holds leaves the guess as it is. Adding an asset of weight
    [w] that it does not hold puts it beside the old members and leaves the
    negative set alone; when it is iterated last the new strength is
    [POSITIVE_MATCH_WEIGHT * (positive_strength + w) +
    NEGATIVE_MATCH_WEIGHT * negative_strength] in floating point; and with
    exact numbers, in whatever order, it is the old strength plus
    [POSITIVE_MATCH_WEIGHT * w]. *)
Theorem strength_add_positive (idf_weight64 : Asset -> float) (PW NW : float)
    (PWq NWq : Q) (g g' : Guess.t) (a : Asset) :
  Guess64.add_positive a g g' ->
  Guess64.strength idf_weight64 PW NW g' =
    (PW * Guess64.sum_idf idf_weight64 (Guess.positive_matches g') +
     NW * Guess64.sum_idf idf_weight64 (Guess.negative_matches g))%float /\
  (a ∈ Guess.positive_matches g -> g' = g) /\
  (a ∉ Guess.positive_matches g ->
   (forall b, b ∈ Guess.positive_matches g' <->
              b = a \/ b ∈ Guess.positive_matches g) /\
   (Guess.positive_matches g' = (Guess.positive_matches g ++ [a])%list ->
    Guess64.strength idf_weight64 PW NW g' =
      (PW * (Guess64.positive_strength idf_weight64 g + idf_weight64 a) +
       NW * Guess64.negative_strength idf_weight64 g)%float) /\
   (Guess.strength PWq NWq g' ==
      Guess.strength PWq NWq g + PWq * idf_weight a)%Q).
Proof.
  intros (Hv & Hp & Hn). unfold Guess64.set_add, PySet.mem in Hp.
  split; [|split].
  - unfold Guess64.strength, Guess64.positive_strength, Guess64.negative_strength.
    rewrite Hn. reflexivity.
  - intros Hin. rewrite bool_decide_eq_true_2 in Hp by exact Hin.
    destruct g, g'. simpl in *. subst. reflexivity.
  - intros Hnew. rewrite bool_decide_eq_false_2 in Hp by exact Hnew.
    split; [|split].
    + intros b. rewrite Hp, elem_of_cons. reflexivity.
    + intros Hlast.
      unfold Guess64.strength, Guess64.positive_strength, Guess64.negative_strength,
        Guess64.sum_idf.
      rewrite Hn, Hlast, fold_left_app. reflexivity.
    + apply strength_add_exact; assumption.
Qed.

Lemma strength_add_positive_witness :
  Guess64.strength Sample.weight64 0.1 (-1)
    (Guess.add_positive Sample.asset_z Sample.guess_xy) =
    (0.1 * (Guess64.positive_strength Sample.weight64 Sample.guess_xy +
            Sample.weight64 Sample.asset_z) +
     -1 * Guess64.negative_strength Sample.weight64 Sample.guess_xy)%float /\
  (Guess.strength 2 (-1) (Guess.add_positive Sample.asset_z Sample.guess_xy) ==
     Guess.strength 2 (-1) Sample.guess_xy + 2 * idf_weight Sample.asset_z)%Q.
Proof.
  destruct (strength_add_positive Sample.weight64 0.1 (-1) 2 (-1)
              Sample.guess_xy (Guess.add_positive Sample.asset_z Sample.guess_xy)
              Sample.asset_z
              (add_positive_in_order Sample.asset_z Sample.guess_xy))
    as (_ & _ & Hnew).
  destruct Hnew as (_ & Hlast & Hexact);
    [apply (bool_decide_unpack _); vm_compute; exact I|].
  split; [apply Hlast; reflexivity|exact Hexact].
Defined.

(** Adding an asset twice counts it once. *)
Lemma strength_add_present (PW NW : Q) (g : Guess.t) (a : Asset) :
  a ∈ Guess.positive_matches g ->
  Guess.strength PW NW (Guess.add_positive a g) = Guess.strength PW NW g.
Proof.
  intros Hin. unfold Guess.strength, Guess.positive_strength, Guess.add_positive.
  simpl. rewrite add_member by assumption. reflexivity.
Qed.

(** C4: the five comparison operators of [Guess] are the comparisons of the
    two strengths, whatever the versions and the evidence sets are; of
    [a < b], [a == b] and [a > b] exactly one holds, and [<=] is total. *)
Theorem guess_order_by_strength (PW NW : Q) (a b : Guess.t) :
  (Guess.lt PW NW a b = true <-> (Guess.strength PW NW a < Guess.strength PW NW b)%Q) /\
  (Guess.le PW NW a b = true <-> (Guess.strength PW NW a <= Guess.strength PW NW b)%Q) /\
  (Guess.eq PW NW a b = true <-> (Guess.strength PW NW a == Guess.strength PW NW b)%Q) /\
  (Guess.ge PW NW a b = true <-> (Guess.strength PW NW b <= Guess.strength PW NW a)%Q) /\
  (Guess.gt PW NW a b = true <-> (Guess.strength PW NW b < Guess.strength PW NW a)%Q) /\
  ((Guess.lt PW NW a b = true /\ Guess.eq PW NW a b = false /\ Guess.gt PW NW a b = false) \/
   (Guess.lt PW NW a b = false /\ Guess.eq PW NW a b = true /\ Guess.gt PW NW a b = false) \/
   (Guess.lt PW NW a b = false /\ Guess.eq PW NW a b = false /\ Guess.gt PW NW a b = true)) /\
  (Guess.le PW NW a b = true \/ Guess.le PW NW b a = true).
Proof.
  unfold Guess.lt, Guess.le, Guess.eq, Guess.ge, Guess.gt.
  set (x := Guess.strength PW NW a). set (y := Guess.strength PW NW b).
  pose proof (num_lt_iff x y) as Hlt.
  pose proof (num_lt_iff y x) as Hgt.
  pose proof (Qeq_bool_iff x y) as Heq.
  pose proof (Qle_bool_iff x y) as Hle.
  pose proof (Qle_bool_iff y x) as Hge.
  repeat split; try tauto.
  - destruct (Q_dec x y) as [[Hxy|Hyx]|Hxy].
    + left. repeat split.
      * tauto.
      * destruct (Qeq_bool x y) eqn:E; [|reflexivity].
        exfalso. apply (Qlt_not_eq _ _ Hxy). tauto.
      * destruct (Guess.num_lt y x) eqn:E; [|reflexivity].
        exfalso. apply (Qlt_irrefl x). apply Qlt_trans with y; tauto.
    + right. right. repeat split.
      * destruct (Guess.num_lt x y) eqn:E; [|reflexivity].
        exfalso. apply (Qlt_irrefl x). apply Qlt_trans with y; tauto.
      * destruct (Qeq_bool x y) eqn:E; [|reflexivity].
        exfalso. apply (Qlt_not_eq _ _ Hyx). symmetry. tauto.
      * tauto.
    + right. left. repeat split.
      * destruct (Guess.num_lt x y) eqn:E; [|reflexivity].
        exfalso. apply (Qlt_not_eq x y); tauto.
      * tauto.
      * destruct (Guess.num_lt y x) eqn:E; [|reflexivity].
        exfalso. apply (Qlt_not_eq y x); [tauto|symmetry; assumption].
  - destruct (Qlt_le_dec y x) as [H|H].
    + right. apply Hge. apply Qlt_le_weak. assumption.
    + left. tauto.
Qed.

(** Two guesses for different versions, with different evidence, tie. *)
Example guess_tie :
  Guess.eq 2 (-1)
    (Guess.init Sample.v54 (Some [Sample.asset_x]) None)
    (Guess.init Sample.v55 (Some [Sample.asset_x; Sample.asset_y])
       (Some [Sample.asset_z])) = true.
Proof. reflexivity. Qed.

(** C8 (as stated, refuted): the constructor stores the sets it is given,
    so a guess built from two sets that share an asset has it in both. *)
Lemma init_shared_asset_counterexample :
  Sample.asset_x ∈ Guess.positive_matches Sample.guess_shared /\
  Sample.asset_x ∈ Guess.negative_matches Sample.guess_shared.
Proof. split; apply (bool_decide_unpack _); vm_compute; exact I. Qed.

(** C8 (amended): a guess built from sets that share no asset (or from no
    sets), to which no asset is added on both sides, has disjoint sets of
    positive and negative matches at every point of its lifetime. *)
Theorem disjoint_matches_preserved
    (sv : SoftwareVersion) (pos neg : option (list Asset))
    (es : list Guess.evidence) :
  (forall a, a ∈ default [] pos \/ Guess.Positive a ∈ es ->
             a ∈ default [] neg \/ Guess.Negative a ∈ es -> False) ->
  forall k, Guess.disjoint_matches (Guess.add_all (Guess.init sv pos neg) (take k es)).
Proof.
  intros Hsep k a Hp Hn.
  apply elem_of_add_all_positive in Hp. apply elem_of_add_all_negative in Hn.
  rewrite init_positive in Hp. rewrite init_negative in Hn.
  apply (Hsep a).
  - destruct Hp as [H|H]; [left; exact H|right].
    apply list_elem_of_lookup in H as [i Hi].
    apply lookup_take_Some in Hi as [Hi _].
    apply list_elem_of_lookup. eauto.
  - destruct Hn as [H|H]; [left; exact H|right].
    apply list_elem_of_lookup in H as [i Hi].
    apply lookup_take_Some in Hi as [Hi _].
    apply list_elem_of_lookup. eauto.
Qed.

(** ** Retrieval *)

Section RetrievalFacts.
Import Resource.
Variable requests_get : nat -> string -> option Response.t.

Ltac run :=
  unfold success, content, final_url, status_code, ensure_retrieved,
    retrieve, cache_has_url, cache_getitem, cache_setitem, get_url,
    get_response, get_success, set_response, set_success, retrieved,
    call_requests_get, raise, mbind, M_bind, mret, M_ret;
  simpl.

Lemma retrieve_hit u c resp succ w r :
  dicts w c !! u = Some r ->
  retrieve requests_get
    {| url := u; cache := Some c; _response := resp; _success := succ |} w =
  (Ok tt,
   {| url := u; cache := Some c; _response := Some r; _success := Some true |},
   w).
Proof.
  intros Hhit. run. rewrite Hhit. simpl. rewrite Hhit. reflexivity.
Qed.
Lemma retrieve_stored u c resp succ w r :
  dicts w c !! u = None ->
  requests_get (length (net_calls w)) u = Some r ->
  retrieve requests_get
    {| url := u; cache := Some c; _response := resp; _success := succ |} w =
  (Ok tt,
   {| url := u; cache := Some c; _response := Some r; _success := Some true |},
   after_setitem c u r (after_call u w)).
Proof.
  intros Hmiss Hget. run. rewrite Hmiss. simpl. rewrite Hget. simpl.
  destruct (Response.status_code r =? 200)%Z; reflexivity.
Qed.

Lemma retrieve_failed u c resp succ w :
  match c with Some d => dicts w d !! u | None => None end = None ->
  requests_get (length (net_calls w)) u = None ->
  retrieve requests_get
    {| url := u; cache := c; _response := resp; _success := succ |} w =
  (Ok tt,
   {| url := u; cache := c; _response := resp; _success := Some false |},
   after_call u w).
Proof.
  intros Hmiss Hget. run.
  destruct c as [d|]; [rewrite Hmiss|]; simpl; rewrite Hget; reflexivity.
Qed.

Lemma retrieve_type_error u resp succ w r :
  requests_get (length (net_calls w)) u = Some r ->
  retrieve requests_get
    {| url := u; cache := None; _response := resp; _success := succ |} w =
  (Raise TypeError,
   {| url := u; cache := None; _response := Some r; _success := succ |},
   after_call u w).
Proof. intros Hget. run. rewrite Hget. reflexivity. Qed.

(** Whatever state [retrieve] starts from, when it returns the flag is set,
    and set to [True] only together with a response. *)
Lemma retrieve_returns self w self' w' :
  retrieve requests_get self w = (Ok tt, self', w') ->
  exists b, _success self' = Some b /\
    (b = true -> exists r, _response self' = Some r).
Proof.
  destruct self as [u c resp succ]. intros Hrun.
  destruct (match c with Some d => dicts w d !! u | None => None end)
    as [r|] eqn:Hlook.
  - destruct c as [d|]; [|discriminate Hlook].
    rewrite (retrieve_hit _ _ _ _ _ _ Hlook) in Hrun.
    inversion Hrun; subst. exists true. eauto.
  - destruct (requests_get (length (net_calls w)) u) as [r|] eqn:Hget.
    + destruct c as [d|].
      * rewrite (retrieve_stored _ _ _ _ _ _ Hlook Hget) in Hrun.
        inversion Hrun; subst. exists true. eauto.
      * rewrite (retrieve_type_error _ _ _ _ _ Hget) in Hrun. discriminate Hrun.
    + rewrite (retrieve_failed _ _ _ _ _ Hlook Hget) in Hrun.
      inversion Hrun; subst. exists false. split; [reflexivity|discriminate].
Qed.

(** The guard of the accessors: nothing to do once the flag is set. *)
Lemma ensure_retrieved_done u c resp b w :
  let self := {| url := u; cache := c; _response := resp; _success := Some b |} in
  ensure_retrieved requests_get self w = (Ok tt, self, w).
Proof.
  simpl. unfold ensure_retrieved, retrieved, mbind, M_bind, mret, M_ret. simpl.
  rewrite orb_true_r. reflexivity.
Qed.

(** On an object without either attribute the guard is [retrieve]. *)
Lemma ensure_retrieved_fresh u c w :
  ensure_retrieved requests_get (init u c) w =
  retrieve requests_get (init u c) w.
Proof.
  unfold ensure_retrieved, retrieved, mbind, M_bind, mret, M_ret. reflexivity.
Qed.

Ltac run_accessor :=
  unfold success, content, final_url, status_code, mbind, M_bind;
  rewrite ?ensure_retrieved_done;
  unfold get_response, get_success, raise, mret, M_ret; simpl;
  rewrite ?ensure_retrieved_done; simpl.

(** The accessors on an object whose flag is set. *)
Lemma accessors_after_failure u c resp w :
  let self := {| url := u; cache := c; _response := resp; _success := Some false |} in
  content requests_get self w = (Raise RetrievalFailure, self, w) /\
  status_code requests_get self w = (Raise RetrievalFailure, self, w) /\
  final_url requests_get self w = (Raise RetrievalFailure, self, w) /\
  success requests_get self w = (Ok false, self, w).
Proof.
  simpl. repeat split; run_accessor; reflexivity.
Qed.

Lemma accessors_after_success u c r w :
  let self := {| url := u; cache := c; _response := Some r; _success := Some true |} in
  content requests_get self w = (Ok (Response.content r), self, w) /\
  status_code requests_get self w = (Ok (Response.status_code r), self, w) /\
  final_url requests_get self w = (Ok (Response.url r), self, w) /\
  success requests_get self w = (Ok (Response.status_code r =? 200)%Z, self, w).
Proof. simpl. repeat split. Qed.


(** C1: once [retrieve] has returned, [success] returns [True] exactly when
    the attempt is flagged successful and the status code of the response is
    200; a response with any other status code gives [False] although the
    attempt succeeded. The call fetches nothing and changes nothing. *)
Theorem success_iff_attempt_ok_and_200 (self : t) (w : World) (self' : t) (w' : World) :
  retrieve requests_get self w = (Ok tt, self', w') ->
  exists b : bool,
    success requests_get self' w' = (Ok b, self', w') /\
    (b = true <->
       exists r, _success self' = Some true /\ _response self' = Some r /\
                 Response.status_code r = 200%Z) /\
    (forall r, _success self' = Some true -> _response self' = Some r ->
               Response.status_code r <> 200%Z -> b = false).
Proof.
  intros Hrun. destruct (retrieve_returns _ _ _ _ Hrun) as [ok [Hok Hresp]].
  destruct self' as [u c resp succ]. simpl in *. subst succ.
  destruct ok.
  - destruct (Hresp eq_refl) as [r ->].
    destruct (accessors_after_success u c r w') as (_ & _ & _ & Hs).
    exists (Response.status_code r =? 200)%Z. split; [exact Hs|]. split.
    + split.
      * intros H. exists r. repeat split. apply Z.eqb_eq. exact H.
      * intros (r' & _ & Hr' & H200). inversion Hr'; subst. apply Z.eqb_eq. exact H200.
    + intros r' _ Hr' Hne. inversion Hr'; subst. apply Z.eqb_neq. exact Hne.
  - destruct (accessors_after_failure u c resp w') as (_ & _ & _ & Hs).
    exists false. split; [exact Hs|]. split.
    + split; [discriminate|]. intros (r & Hflag & _). discriminate Hflag.
    + reflexivity.
Qed.

(** C6: with the url already in the cache, [retrieve] returns with the
    cached response adopted and the attempt flagged successful; the world is
    the one it started in, so nothing was fetched and nothing stored. *)
Theorem retrieve_uses_cache (u : string) (c : nat) (w : World) (r : Response.t) :
  dicts w c !! u = Some r ->
  retrieve requests_get (init u (Some c)) w =
  (Ok tt,
   {| url := u; cache := Some c; _response := Some r; _success := Some true |},
   w) /\
  net_calls (snd (retrieve requests_get (init u (Some c)) w)) = net_calls w.
Proof.
  intros Hhit. unfold init. rewrite (retrieve_hit _ _ _ _ _ _ Hhit).
  split; reflexivity.
Qed.

(** C10: without a cache, [retrieve] raises [TypeError] when the network
    call succeeds (the response is kept, the flag is not set), and returns
    normally, flag [False], when the call fails. *)
Theorem retrieve_without_cache (u : string) (resp : option Response.t)
    (succ : option bool) (w : World) :
  let self := {| url := u; cache := None; _response := resp; _success := succ |} in
  match requests_get (length (net_calls w)) u with
  | Some r =>
      retrieve requests_get self w =
      (Raise TypeError,
       {| url := u; cache := None; _response := Some r; _success := succ |},
       after_call u w)
  | None =>
      retrieve requests_get self w =
      (Ok tt,
       {| url := u; cache := None; _response := resp; _success := Some false |},
       after_call u w)
  end.
Proof.
  simpl. destruct (requests_get (length (net_calls w)) u) as [r|] eqn:Hget.
  - apply retrieve_type_error. exact Hget.
  - apply retrieve_failed; [reflexivity|exact Hget].
Qed.

(** With a cache, each accessor fetches on first access and then either
    returns the datum or raises [RetrievalFailure]. *)
Lemma content_with_cache (u : string) (c : nat) (w : World) :
  content requests_get (init u (Some c)) w =
  match dicts w c !! u with
  | Some r =>
      (Ok (Response.content r),
       {| url := u; cache := Some c; _response := Some r; _success := Some true |},
       w)
  | None =>
      match requests_get (length (net_calls w)) u with
      | Some r =>
          (Ok (Response.content r),
           {| url := u; cache := Some c; _response := Some r; _success := Some true |},
           after_setitem c u r (after_call u w))
      | None =>
          (Raise RetrievalFailure,
           {| url := u; cache := Some c; _response := None; _success := Some false |},
           after_call u w)
      end
  end.
Proof.
  unfold content, mbind, M_bind. rewrite ensure_retrieved_fresh. unfold init.
  destruct (dicts w c !! u) as [r|] eqn:Hlook.
  - rewrite (retrieve_hit _ _ _ _ _ _ Hlook). reflexivity.
  - destruct (requests_get (length (net_calls w)) u) as [r|] eqn:Hget.
    + rewrite (retrieve_stored _ _ _ _ _ _ Hlook Hget). reflexivity.
    + rewrite (retrieve_failed u (Some c) _ _ _ Hlook Hget). reflexivity.
Qed.


(** C7 (amended): once [retrieve] has returned on a new object, each of
    [content], [status_code], [final_url] and [success] leaves the object and
    the world as they are (no further attempt, nothing fetched), and gives
    the outcome that the same accessor gives when it is the first thing
    invoked on the new object, which then makes that one attempt itself. *)
Theorem accessors_memoized (u : string) (c : option nat) (w0 : World)
    (self : t) (w : World) :
  retrieve requests_get (init u c) w0 = (Ok tt, self, w) ->
  (exists o, content requests_get self w = (o, self, w) /\
             content requests_get (init u c) w0 = (o, self, w)) /\
  (exists o, status_code requests_get self w = (o, self, w) /\
             status_code requests_get (init u c) w0 = (o, self, w)) /\
  (exists o, final_url requests_get self w = (o, self, w) /\
             final_url requests_get (init u c) w0 = (o, self, w)) /\
  (exists o, success requests_get self w = (o, self, w) /\
             success requests_get (init u c) w0 = (o, self, w)).
Proof.
  intros Hrun.
  destruct (retrieve_returns _ _ _ _ Hrun) as [ok [Hok Hresp]].
  assert (Hfresh : ensure_retrieved requests_get (init u c) w0 = (Ok tt, self, w))
    by (rewrite ensure_retrieved_fresh; exact Hrun).
  destruct self as [u' c' resp succ]. simpl in *. subst succ.
  destruct ok.
  - destruct (Hresp eq_refl) as [r ->].
    destruct (accessors_after_success u' c' r w) as (Hc & Hs & Hf & Hb).
    repeat split; eexists; (split; [eassumption|]);
      unfold content, status_code, final_url, success, mbind, M_bind;
      rewrite Hfresh; run_accessor; reflexivity.
  - destruct (accessors_after_failure u' c' resp w) as (Hc & Hs & Hf & Hb).
    repeat split; eexists; (split; [eassumption|]);
      unfold content, status_code, final_url, success, mbind, M_bind;
      rewrite Hfresh; run_accessor; reflexivity.
Qed.

End RetrievalFacts.

(** C7 (as stated, refuted): [retrieve] itself is not guarded. On a network
    whose first call fails, [content] raises [RetrievalFailure]; an explicit
    [retrieve()] then fetches again, and [content] returns the body: two
    attempts, two different outcomes. *)
Lemma explicit_retrieve_refetches_counterexample :
  let run :=
    Resource.around_retrieve Sample.flaky (Resource.content Sample.flaky)
      (Resource.init Sample.address (Some O)) Sample.cold in
  fst (fst run) = Raise RetrievalFailure /\
  snd (fst run) = Ok Sample.body /\
  net_calls (snd run) = [Sample.address; Sample.address].
Proof. repeat split. Qed.

Lemma accessors_memoized_witness :
  Resource.retrieve Sample.flaky (Resource.init Sample.address (Some O)) Sample.cold =
    (Ok tt,
     {| Resource.url := Sample.address; Resource.cache := Some O;
        Resource._response := None; Resource._success := Some false |},
     after_call Sample.address Sample.cold) /\
  exists o,
    Resource.content Sample.flaky
      {| Resource.url := Sample.address; Resource.cache := Some O;
         Resource._response := None; Resource._success := Some false |}
      (after_call Sample.address Sample.cold) =
    (o,
     {| Resource.url := Sample.address; Resource.cache := Some O;
        Resource._response := None; Resource._success := Some false |},
     after_call Sample.address Sample.cold) /\
    Resource.content Sample.flaky (Resource.init Sample.address (Some O)) Sample.cold =
    (o,
     {| Resource.url := Sample.address; Resource.cache := Some O;
        Resource._response := None; Resource._success := Some false |},
     after_call Sample.address Sample.cold).
Proof.
  split; [reflexivity|].
  exact (proj1 (accessors_memoized Sample.flaky Sample.address (Some O) Sample.cold
                  _ _ eq_refl)).
Defined.

(** C5 (the code at the failing input): on an object without a cache and a
    network that serves the page, the first access of each accessor raises
    [TypeError], and an access after that raises [AttributeError]. *)
Lemma accessors_without_cache_raise :
  let stuck :=
    {| Resource.url := Sample.address; Resource.cache := None;
       Resource._response := Some Sample.page; Resource._success := None |} in
  let w := after_call Sample.address Sample.cold in
  Resource.content Sample.serving (Resource.init Sample.address None) Sample.cold =
    (Raise TypeError, stuck, w) /\
  Resource.status_code Sample.serving (Resource.init Sample.address None) Sample.cold =
    (Raise TypeError, stuck, w) /\
  Resource.final_url Sample.serving (Resource.init Sample.address None) Sample.cold =
    (Raise TypeError, stuck, w) /\
  Resource.content Sample.serving stuck w = (Raise AttributeError, stuck, w).
Proof. repeat split. Qed.

Lemma success_iff_attempt_ok_and_200_witness :
  exists b : bool,
    Resource.success Sample.serving_error_page
      {| Resource.url := Sample.address; Resource.cache := Some O;
         Resource._response := Some Sample.error_page;
         Resource._success := Some true |}
      (after_setitem O Sample.address Sample.error_page
         (after_call Sample.address Sample.cold)) =
    (Ok b,
     {| Resource.url := Sample.address; Resource.cache := Some O;
        Resource._response := Some Sample.error_page;
        Resource._success := Some true |},
     after_setitem O Sample.address Sample.error_page
       (after_call Sample.address Sample.cold)) /\
    b = false.
Proof.
  destruct (success_iff_attempt_ok_and_200 Sample.serving_error_page
              (Resource.init Sample.address (Some O)) Sample.cold _ _ eq_refl)
    as [b (Hrun & _ & Hnot)].
  exists b. split; [exact Hrun|].
  apply (Hnot Sample.error_page); [reflexivity|reflexivity|discriminate].
Defined.

Lemma retrieve_uses_cache_witness :
  Resource.retrieve Sample.flaky (Resource.init Sample.address (Some O)) Sample.warm =
  (Ok tt,
   {| Resource.url := Sample.address; Resource.cache := Some O;
      Resource._response := Some Sample.page; Resource._success := Some true |},
   Sample.warm).
Proof.
  exact (proj1 (retrieve_uses_cache Sample.flaky Sample.address O Sample.warm
                  Sample.page eq_refl)).
Defined.

Lemma disjoint_matches_preserved_witness :
  Sample.asset_y ∈
    Guess.positive_matches
      (Guess.add_all
         (Guess.init Sample.v54 (Some [Sample.asset_x]) (Some [Sample.asset_z]))
         (take 1 [Guess.Positive Sample.asset_y])) /\
  Guess.disjoint_matches
    (Guess.add_all
       (Guess.init Sample.v54 (Some [Sample.asset_x]) (Some [Sample.asset_z]))
       (take 1 [Guess.Positive Sample.asset_y])).
Proof.
  split; [apply (bool_decide_unpack _); vm_compute; exact I|].
  apply (disjoint_matches_preserved Sample.v54 (Some [Sample.asset_x])
           (Some [Sample.asset_z]) [Guess.Positive Sample.asset_y]).
  intros a Hp Hn. simpl in Hp, Hn.
  rewrite !list_elem_of_singleton in Hp. rewrite !list_elem_of_singleton in Hn.
  destruct Hn as [Hn|Hn]; [|discriminate Hn].
  destruct Hp as [Hp|Hp]; [|inversion Hp]; subst a; discriminate.
Defined.

(** ** Strings *)

Section StringFacts.
Import PyStr.

Lemma length_append (a b : string) :
  String.length (a +:+ b) = String.length a + String.length b.
Proof. induction a as [|c a IH]; simpl; [reflexivity|]. rewrite IH. reflexivity. Qed.

Lemma length_take (n : nat) (s : string) :
  String.length (take n s) = Nat.min n (String.length s).
Proof.
  revert s. induction n as [|n IH]; intros [|c s]; simpl; try reflexivity.
  rewrite IH. reflexivity.
Qed.

Lemma length_drop (n : nat) (s : string) :
  String.length (drop n s) = String.length s - n.
Proof.
  revert s. induction n as [|n IH]; intros [|c s]; simpl; try reflexivity.
  apply IH.
Qed.





Lemma length_last (n : nat) (s : string) :
  String.length (last n s) = Nat.min n (String.length s).
Proof. unfold last. rewrite length_drop. lia. Qed.


Lemma length_hex (b : list Byte.byte) :
  String.length (hex b) = 2 * length b.
Proof. induction b as [|x b IH]; simpl; [reflexivity|]. rewrite IH. lia. Qed.

End StringFacts.

(** ** Persisting *)

Section PersistFacts.
Import Resource.
Variable requests_get : nat -> string -> option Response.t.
Variable urlparse : string -> ParseResult.
Variable clean_path_name : string -> string.
Variable calculate_checksum : list Byte.byte -> list Byte.byte.
Variable urlparse_raises : string -> bool.
Variable makedirs_raises : string -> World -> bool.
Variable open_raises : string -> World -> bool.

(** What [persist] does with a resource retrieved with status 200: the
    first of [urlparse], [os.makedirs] and [open] that raises ends it;
    otherwise the body is written under the name that [persist_path_name]
    gives, below the directory of scheme and host. *)
Lemma persist_holding (base_path u : string) (c : option nat) (r : Response.t)
    (w : World) :
  Response.status_code r = 200%Z ->
  let p := persist_path urlparse clean_path_name calculate_checksum base_path u in
  persist requests_get urlparse clean_path_name calculate_checksum
    urlparse_raises makedirs_raises open_raises base_path (holding u c r) w =
  if urlparse_raises u then (Raise ValueError, holding u c r, w)
  else if makedirs_raises (PyStr.os_path_dirname p) w
       then (Raise OSError, holding u c r, w)
  else if open_raises p w then (Raise OSError, holding u c r, w)
  else (Ok tt, holding u c r, after_write p (Response.content r) w).
Proof.
  intros H200 p.
  destruct (accessors_after_success requests_get u c r w) as (Hc & _ & _ & Hs).
  unfold holding.
  unfold persist, retrieved, mbind, M_bind, mret, M_ret, get_url, call_urlparse,
    os_makedirs, write_file, raise.
  cbn -[success content persist_path PyStr.os_path_dirname]. rewrite Hs, H200.
  cbn -[success content persist_path PyStr.os_path_dirname].
  destruct (urlparse_raises u); [reflexivity|].
  cbn -[success content persist_path PyStr.os_path_dirname]. fold p.
  destruct (makedirs_raises (PyStr.os_path_dirname p) w); [reflexivity|].
  destruct (open_raises p w); [reflexivity|].
  rewrite Hc. reflexivity.
Qed.

(** A resource that was not retrieved, or not with success, is not written. *)
Lemma persist_skips (base_path u : string) (c : option nat)
    (resp : option Response.t) (w : World) :
  persist requests_get urlparse clean_path_name calculate_checksum
    urlparse_raises makedirs_raises open_raises base_path (init u c) w =
  (Ok tt, init u c, w) /\
  persist requests_get urlparse clean_path_name calculate_checksum
    urlparse_raises makedirs_raises open_raises base_path
    {| url := u; cache := c; _response := resp; _success := Some false |} w =
  (Ok tt, {| url := u; cache := c; _response := resp; _success := Some false |}, w).
Proof.
  split.
  - reflexivity.
  - destruct (accessors_after_failure requests_get u c resp w) as (_ & _ & _ & Hs).
    unfold persist, retrieved, mbind, M_bind, mret, M_ret.
    cbn -[success content persist_path]. rewrite orb_true_r.
    cbn -[success content persist_path]. rewrite Hs. reflexivity.
Qed.



End PersistFacts.



(** ** Extraction from the generator tag *)

Section ExtractFacts.
Import Resource.
Variable retrieve_packages_by_name : string -> list SoftwarePackage.
Variable retrieve_versions : SoftwarePackage -> list SoftwareVersion.

Lemma not_in_name_spec (token : string) (v : SoftwareVersion) :
  not_in_name token v = negb (spec_name_contains token v).
Proof. reflexivity. Qed.

(** The loop removes from [m] the versions of [vs] that fail the test, and
    never meets a [KeyError], as long as [vs] is a set contained in [m]. *)
Lemma narrow_removes (token : string) (vs m : list SoftwareVersion) :
  NoDup m -> NoDup vs -> (forall v, v ∈ vs -> v ∈ m) ->
  exists m', narrow token vs m = Some m' /\
    forall v, v ∈ m' <-> v ∈ m /\ (v ∈ vs -> spec_name_contains token v = true).
Proof.
  revert m. induction vs as [|x vs IH]; intros m Hm Hvs Hsub; simpl.
  - exists m. split; [reflexivity|]. intros v. rewrite elem_of_nil. tauto.
  - apply NoDup_cons in Hvs as [Hx Hvs].
    rewrite not_in_name_spec.
    destruct (spec_name_contains token x) eqn:Hkeep; simpl.
    + destruct (IH m Hm Hvs) as [m' [Hrun Hmem]].
      { intros v Hv. apply Hsub. apply elem_of_cons. auto. }
      exists m'. split; [exact Hrun|]. intros v. rewrite Hmem, elem_of_cons.
      split.
      * intros [Hv Hok]. split; [exact Hv|]. intros [->|Hin]; auto.
      * intros [Hv Hok]. split; auto.
    + unfold PySet.remove, PySet.mem.
      rewrite bool_decide_eq_true_2 by (apply Hsub; apply elem_of_cons; auto).
      destruct (IH (PySet.remove_first x m)) as [m' [Hrun Hmem]].
      { apply NoDup_remove_first. exact Hm. }
      { exact Hvs. }
      { intros v Hv. apply elem_of_remove_first; [exact Hm|]. split.
        - apply Hsub. apply elem_of_cons. auto.
        - intros ->. contradiction. }
      exists m'. split; [exact Hrun|]. intros v.
      rewrite Hmem, (elem_of_remove_first _ _ _ Hm), elem_of_cons. split.
      * intros [[Hv Hne] Hok]. split; [exact Hv|].
        intros [->|Hin]; [congruence|auto].
      * intros [Hv Hok]. split; [split; [exact Hv|]|].
        -- intros ->. rewrite Hok in Hkeep by auto. discriminate.
        -- auto.
Qed.

Lemma elem_of_spec_versions_for (token : string) (pkg : SoftwarePackage)
    (v : SoftwareVersion) :
  v ∈ spec_versions_for retrieve_versions token pkg <->
  (v ∈ retrieve_versions pkg /\ spec_name_contains token v = true) \/
  (v ∈ retrieve_versions pkg /\
   forall x, x ∈ retrieve_versions pkg -> spec_name_contains token x = false).
Proof.
  unfold spec_versions_for.
  destruct (List.filter (spec_name_contains token) (retrieve_versions pkg))
    as [|y narrowed] eqn:Hf.
  - split.
    + intros Hv. right. split; [exact Hv|]. intros x Hx.
      destruct (spec_name_contains token x) eqn:E; [|reflexivity].
      assert (Hin : In x (List.filter (spec_name_contains token) (retrieve_versions pkg)))
        by (apply filter_In; split; [apply list_elem_of_In; exact Hx|exact E]).
      rewrite Hf in Hin. destruct Hin.
    + intros [[Hv _]|[Hv _]]; exact Hv.
  - rewrite <- Hf. rewrite list_elem_of_In, filter_In, <- list_elem_of_In. split.
    + intros H. left. exact H.
    + intros [H|[Hv Hnone]]; [exact H|].
      assert (Hin : In y (List.filter (spec_name_contains token) (retrieve_versions pkg)))
        by (rewrite Hf; left; reflexivity).
      apply filter_In in Hin as [Hy Hkeep].
      rewrite (Hnone y) in Hkeep by (apply list_elem_of_In; exact Hy).
      discriminate.
Qed.

Hypothesis versions_are_sets : forall pkg, NoDup (retrieve_versions pkg).

Lemma matching_versions_of_spec (first token : string) (rest : list string)
    (pkg : SoftwarePackage) :
  exists m, matching_versions_of retrieve_versions (first :: token :: rest) pkg = Some m /\
    forall v, v ∈ m <-> v ∈ spec_versions_for retrieve_versions token pkg.
Proof.
  unfold matching_versions_of.
  destruct (narrow_removes token (retrieve_versions pkg) (retrieve_versions pkg))
    as [m' [Hrun Hmem]]; auto.
  rewrite Hrun.
  destruct m' as [|y kept]; simpl.
  - exists (retrieve_versions pkg). split; [reflexivity|]. intros v.
    rewrite elem_of_spec_versions_for. split.
    + intros Hv. right. split; [exact Hv|]. intros x Hx.
      destruct (spec_name_contains token x) eqn:E; [|reflexivity].
      exfalso. apply (not_elem_of_nil x). apply Hmem. auto.
    + intros [[Hv _]|[Hv _]]; exact Hv.
  - exists (y :: kept). split; [reflexivity|]. intros v.
    rewrite Hmem, elem_of_spec_versions_for. split.
    + intros [Hv Hok]. left. auto.
    + intros [[Hv Hok]|[Hv Hnone]]; [auto|].
      exfalso.
      assert (Hy : y ∈ retrieve_versions pkg /\
                   (y ∈ retrieve_versions pkg -> spec_name_contains token y = true))
        by (apply Hmem; apply elem_of_cons; auto).
      destruct Hy as [Hy Hok]. rewrite (Hnone y Hy) in Hok.
      specialize (Hok Hy). discriminate.
Qed.

Lemma update_all_spec (first token : string) (rest : list string)
    (matches : list SoftwarePackage) (result : list SoftwareVersion) :
  exists result', update_all retrieve_versions (first :: token :: rest) matches result
                  = Some result' /\
    forall v, v ∈ result' <->
      v ∈ result \/
      exists pkg, pkg ∈ matches /\ v ∈ spec_versions_for retrieve_versions token pkg.
Proof.
  revert result. induction matches as [|pkg matches IH]; intros result.
  - exists result. split; [reflexivity|]. intros v. split; [auto|].
    intros [Hv|[pkg [Hpkg _]]]; [exact Hv|]. apply elem_of_nil in Hpkg. destruct Hpkg.
  - cbn [update_all].
    destruct (matching_versions_of_spec first token rest pkg) as [m [Hm Hmem]].
    rewrite Hm.
    destruct (IH (PySet.update result m)) as [result' [Hrun Hres]].
    exists result'. split; [exact Hrun|]. intros v.
    rewrite Hres, elem_of_update, Hmem. split.
    + intros [[Hv|Hv]|[p [Hp Hv]]]; auto.
      * right. exists pkg. split; [apply elem_of_cons; auto|exact Hv].
      * right. exists p. split; [apply elem_of_cons; auto|exact Hv].
    + intros [Hv|[p [Hp Hv]]]; auto.
      apply elem_of_cons in Hp as [->|Hp]; [auto|]. right. exists p. auto.
Qed.

Lemma split_from_nonempty (cur s : string) :
  PyStr.truthy cur = true -> PyStr.split_from cur s <> [].
Proof.
  revert cur. induction s as [|c s IH]; intros cur Hcur; simpl.
  - rewrite Hcur. discriminate.
  - destruct (PyStr.is_space c).
    + rewrite Hcur. discriminate.
    + apply IH. destruct cur; reflexivity.
Qed.

(** C2: one generator tag whose content splits into at least two tokens.
    The extraction returns (no [KeyError]), and a version is in the result
    exactly when, for some package matching the first token, it is among
    that package's versions whose name contains the second token
    (case-insensitive, trimmed), or among all of the package's versions when
    no name contains it. *)
Theorem generator_tag_narrows (generator_tag first second : string)
    (rest : list string) :
  PyStr.split generator_tag = first :: second :: rest ->
  exists result,
    _extract_generator_tag retrieve_packages_by_name retrieve_versions
      [Some generator_tag] = Some result /\
    forall v, v ∈ result <->
      exists pkg, pkg ∈ retrieve_packages_by_name first /\
                  v ∈ spec_versions_for retrieve_versions second pkg.
Proof.
  intros Hsplit. unfold _extract_generator_tag.
  assert (Htruthy : PyStr.truthy generator_tag = true).
  { destruct generator_tag; [discriminate Hsplit|reflexivity]. }
  rewrite Htruthy, Hsplit. simpl negb. cbv iota.
  destruct (update_all_spec first second rest (retrieve_packages_by_name first) [])
    as [result [Hrun Hres]].
  exists result. split; [exact Hrun|]. intros v. rewrite Hres. split.
  - intros [Hv|H]; [apply elem_of_nil in Hv; destruct Hv|exact H].
  - auto.
Qed.

End ExtractFacts.

Lemma sample_versions_are_sets (pkg : SoftwarePackage) :
  NoDup (Sample.versions_of pkg).
Proof.
  unfold Sample.versions_of.
  destruct (String.eqb (package_name pkg) "WordPress").
  - apply NoDup_cons. split; [|apply NoDup_singleton].
    rewrite list_elem_of_singleton. discriminate.
  - apply NoDup_nil. exact I.
Qed.

Lemma generator_tag_narrows_witness :
  Resource._extract_generator_tag Sample.packages_by_name Sample.versions_of
    [Some "WordPress 5.4"] = Some [Sample.v54] /\
  Resource._extract_generator_tag Sample.packages_by_name Sample.versions_of
    [Some "WordPress 9.9"] = Some [Sample.v54; Sample.v55] /\
  exists result,
    Resource._extract_generator_tag Sample.packages_by_name Sample.versions_of
      [Some "WordPress 5.4"] = Some result /\
    forall v, v ∈ result <->
      exists pkg, pkg ∈ Sample.packages_by_name "WordPress" /\
                  v ∈ Resource.spec_versions_for Sample.versions_of "5.4" pkg.
Proof.
  split; [reflexivity|]. split; [reflexivity|].
  exact (generator_tag_narrows Sample.packages_by_name Sample.versions_of
           sample_versions_are_sets "WordPress 5.4" "WordPress" "5.4" [] eq_refl).
Defined.

(** No tag, two tags, or a tag without content: nothing is extracted. *)
Example generator_tag_unreliable :
  Resource._extract_generator_tag Sample.packages_by_name Sample.versions_of
    [] = Some [] /\
  Resource._extract_generator_tag Sample.packages_by_name Sample.versions_of
    [Some "WordPress 5.4"; Some "WordPress 5.5"] = Some [] /\
  Resource._extract_generator_tag Sample.packages_by_name Sample.versions_of
    [None] = Some [].
Proof. repeat split. Qed.

(** * More of the evidence model *)

Section GuessMore.
Import Guess.
Local Open Scope Q_scope.

Lemma positive_matches_add_all (g : t) (es : list evidence) :
  positive_matches (add_all g es) =
  PySet.update (positive_matches g) (positives es).
Proof.
  revert g. induction es as [|e es IH]; intros g; [reflexivity|].
  change (add_all g (e :: es)) with (add_all (add_evidence g e) es).
  rewrite IH. destruct e; reflexivity.
Qed.

Lemma negative_matches_add_all (g : t) (es : list evidence) :
  negative_matches (add_all g es) =
  PySet.update (negative_matches g) (negatives es).
Proof.
  revert g. induction es as [|e es IH]; intros g; [reflexivity|].
  change (add_all g (e :: es)) with (add_all (add_evidence g e) es).
  rewrite IH. destruct e; reflexivity.
Qed.

Lemma NoDup_add (a : Asset) (s : list Asset) : NoDup s -> NoDup (PySet.add a s).
Proof.
  intros Hs. destruct (decide (a ∈ s)) as [Hin|Hout].
  - rewrite add_member by assumption. exact Hs.
  - rewrite add_not_member by assumption.
    apply NoDup_app. split; [exact Hs|]. split.
    + intros x Hx Hx'. apply list_elem_of_singleton in Hx'. subst. contradiction.
    + apply NoDup_singleton.
Qed.

Lemma NoDup_update (s l : list Asset) : NoDup s -> NoDup (PySet.update s l).
Proof.
  unfold PySet.update. revert s.
  induction l as [|a l IH]; intros s Hs; simpl; [exact Hs|].
  apply IH. apply NoDup_add. exact Hs.
Qed.

Lemma length_update_distinct (l : list Asset) :
  length (PySet.update [] l) = length (remove_dups l).
Proof.
  apply Permutation_length. apply NoDup_Permutation.
  - apply NoDup_update. apply NoDup_nil. exact I.
  - apply NoDup_remove_dups.
  - intros x. rewrite elem_of_update, elem_of_remove_dups, elem_of_nil. tauto.
Qed.

End GuessMore.

(** X3: the comparison operators make a strict weak order, which is what
    sorting guesses relies on: [<] is irreflexive and transitive, [==] is
    reflexive, symmetric and transitive, [<=] is [<] or [==], and guesses
    that compare equal compare alike with every third guess. *)
Theorem guess_order_strict_weak (PW NW : Q) (a b c : Guess.t) :
  Guess.lt PW NW a a = false /\
  Guess.eq PW NW a a = true /\
  Guess.eq PW NW a b = Guess.eq PW NW b a /\
  Guess.le PW NW a b = (Guess.lt PW NW a b || Guess.eq PW NW a b) /\
  (Guess.lt PW NW a b = true -> Guess.lt PW NW b c = true ->
   Guess.lt PW NW a c = true) /\
  (Guess.eq PW NW a b = true -> Guess.eq PW NW b c = true ->
   Guess.eq PW NW a c = true) /\
  (Guess.eq PW NW a b = true ->
   Guess.lt PW NW a c = Guess.lt PW NW b c /\
   Guess.lt PW NW c a = Guess.lt PW NW c b).
Proof.
  unfold Guess.lt, Guess.le, Guess.eq.
  set (x := Guess.strength PW NW a). set (y := Guess.strength PW NW b).
  set (z := Guess.strength PW NW c).
  repeat split.
  - destruct (Guess.num_lt x x) eqn:E; [|reflexivity].
    apply num_lt_iff in E. exfalso. exact (Qlt_irrefl x E).
  - apply Qeq_bool_iff. reflexivity.
  - apply Bool.eq_iff_eq_true. rewrite !Qeq_bool_iff. split; intros H; symmetry; exact H.
  - apply Bool.eq_iff_eq_true.
    rewrite orb_true_iff, Qle_bool_iff, num_lt_iff, Qeq_bool_iff.
    apply Qle_lteq.
  - rewrite !num_lt_iff. apply Qlt_trans.
  - rewrite !Qeq_bool_iff. apply Qeq_trans.
  - apply Bool.eq_iff_eq_true. rewrite !num_lt_iff.
    apply Qeq_bool_iff in H. rewrite H. reflexivity.
  - apply Bool.eq_iff_eq_true. rewrite !num_lt_iff.
    apply Qeq_bool_iff in H. rewrite H. reflexivity.
Qed.

Lemma guess_order_strict_weak_witness :
  Guess.lt 2 (-1) Sample.guess_x (Guess.add_positive Sample.asset_z Sample.guess_x) = true /\
  Guess.eq 2 (-1) Sample.guess_x
    (Guess.init Sample.v55 (Some [Sample.asset_x]) None) = true.
Proof.
  destruct (guess_order_strict_weak 2 (-1) Sample.guess_x
              (Guess.add_positive Sample.asset_y Sample.guess_x)
              (Guess.add_positive Sample.asset_z Sample.guess_x))
    as (_ & _ & _ & _ & Hlt & _).
  destruct (guess_order_strict_weak 2 (-1) Sample.guess_x Sample.guess_x
              (Guess.init Sample.v55 (Some [Sample.asset_x]) None))
    as (_ & _ & _ & _ & _ & Heq & _).
  split; [apply Hlt; reflexivity|apply Heq; reflexivity].
Defined.

(** X4: the match counts that [debug_serialize] reports for a guess that
    started without evidence are the numbers of distinct assets among the
    positive and among the negative evidence added: evidence that arrives
    twice is counted once. *)
Theorem debug_counts_distinct (sv : SoftwareVersion) (es : list Guess.evidence) :
  Guess.debug_positive_matches
    (Guess.debug_serialize (Guess.add_all (Guess.init sv None None) es)) =
  length (remove_dups (Guess.positives es)) /\
  Guess.debug_negative_matches
    (Guess.debug_serialize (Guess.add_all (Guess.init sv None None) es)) =
  length (remove_dups (Guess.negatives es)).
Proof.
  unfold Guess.debug_serialize. simpl.
  rewrite positive_matches_add_all, negative_matches_add_all. simpl.
  split; apply length_update_distinct.
Qed.

(** * More of the retrieval *)

Section RetrievalMore.
Import Resource.
Variable requests_get : nat -> string -> option Response.t.

Lemma retrieve_with_cache (u : string) (c : nat) (w : World) :
  retrieve requests_get (init u (Some c)) w =
  match dicts w c !! u with
  | Some r => (Ok tt, holding u (Some c) r, w)
  | None =>
      match requests_get (length (net_calls w)) u with
      | Some r => (Ok tt, holding u (Some c) r, after_setitem c u r (after_call u w))
      | None => (Ok tt, failed u (Some c) None, after_call u w)
      end
  end.
Proof.
  unfold init, holding, failed.
  destruct (dicts w c !! u) as [r|] eqn:Hlook.
  - apply retrieve_hit. exact Hlook.
  - destruct (requests_get (length (net_calls w)) u) as [r|] eqn:Hget.
    + apply retrieve_stored; assumption.
    + apply (retrieve_failed requests_get u (Some c)); assumption.
Qed.

Lemma accessors_holding (u : string) (c : option nat) (r : Response.t) (w : World) :
  content requests_get (holding u c r) w = (Ok (Response.content r), holding u c r, w) /\
  status_code requests_get (holding u c r) w =
    (Ok (Response.status_code r), holding u c r, w) /\
  final_url requests_get (holding u c r) w = (Ok (Response.url r), holding u c r, w) /\
  success requests_get (holding u c r) w =
    (Ok (Response.status_code r =? 200)%Z, holding u c r, w).
Proof. exact (accessors_after_success requests_get u c r w). Qed.

Lemma accessors_failed (u : string) (c : option nat) (resp : option Response.t)
    (w : World) :
  content requests_get (failed u c resp) w = (Raise RetrievalFailure, failed u c resp, w) /\
  status_code requests_get (failed u c resp) w =
    (Raise RetrievalFailure, failed u c resp, w) /\
  final_url requests_get (failed u c resp) w =
    (Raise RetrievalFailure, failed u c resp, w) /\
  success requests_get (failed u c resp) w = (Ok false, failed u c resp, w).
Proof. exact (accessors_after_failure requests_get u c resp w). Qed.

(** An accessor on a new object is [retrieve] and then the accessor. *)
Lemma first_access (u : string) (c : option nat) (w : World) :
  let after := retrieve requests_get (init u c) w in
  forall self' w', after = (Ok tt, self', w') ->
    content requests_get (init u c) w = content requests_get self' w' /\
    status_code requests_get (init u c) w = status_code requests_get self' w' /\
    final_url requests_get (init u c) w = final_url requests_get self' w' /\
    success requests_get (init u c) w = success requests_get self' w'.
Proof.
  intros after self' w' Hrun. unfold after in Hrun.
  destruct (retrieve_returns requests_get _ _ _ _ Hrun) as [b [Hb _]].
  destruct self' as [u' c' resp succ]. simpl in Hb. subst succ.
  pose proof (ensure_retrieved_done requests_get u' c' resp b w') as Hdone.
  simpl in Hdone.
  repeat split; unfold content, status_code, final_url, success, mbind, M_bind;
    rewrite ensure_retrieved_fresh, Hrun, Hdone; reflexivity.
Qed.

Lemma lookup_after_setitem (c : nat) (u : string) (r : Response.t) (w : World) :
  dicts (after_setitem c u r w) c !! u = Some r.
Proof.
  unfold after_setitem. simpl. rewrite decide_True by reflexivity.
  apply lookup_insert_eq.
Qed.

(** X5: on a new object that has a cache, the first access of an accessor
    makes the one attempt. With the url cached it returns the datum of the
    cached response and the world stays as it is; otherwise it fetches, and
    returns the datum of the response, now stored in the cache, or raises
    [RetrievalFailure] ([success]: returns [False]) when the fetch failed.
    No other exception comes out. *)
Theorem first_access_with_cache (u : string) (c : nat) (w : World) :
  let new := init u (Some c) in
  match dicts w c !! u with
  | Some r =>
      content requests_get new w =
        (Ok (Response.content r), holding u (Some c) r, w) /\
      status_code requests_get new w =
        (Ok (Response.status_code r), holding u (Some c) r, w) /\
      final_url requests_get new w =
        (Ok (Response.url r), holding u (Some c) r, w) /\
      success requests_get new w =
        (Ok (Response.status_code r =? 200)%Z, holding u (Some c) r, w)
  | None =>
      match requests_get (length (net_calls w)) u with
      | Some r =>
          let w1 := after_setitem c u r (after_call u w) in
          content requests_get new w =
            (Ok (Response.content r), holding u (Some c) r, w1) /\
          status_code requests_get new w =
            (Ok (Response.status_code r), holding u (Some c) r, w1) /\
          final_url requests_get new w =
            (Ok (Response.url r), holding u (Some c) r, w1) /\
          success requests_get new w =
            (Ok (Response.status_code r =? 200)%Z, holding u (Some c) r, w1)
      | None =>
          let w1 := after_call u w in
          content requests_get new w =
            (Raise RetrievalFailure, failed u (Some c) None, w1) /\
          status_code requests_get new w =
            (Raise RetrievalFailure, failed u (Some c) None, w1) /\
          final_url requests_get new w =
            (Raise RetrievalFailure, failed u (Some c) None, w1) /\
          success requests_get new w = (Ok false, failed u (Some c) None, w1)
      end
  end.
Proof.
  intros new. subst new. pose proof (retrieve_with_cache u c w) as Hrun.
  pose proof (first_access u (Some c) w) as Hfirst. simpl in Hfirst.
  destruct (dicts w c !! u) as [r|].
  - destruct (Hfirst _ _ Hrun) as (-> & -> & -> & ->). apply accessors_holding.
  - destruct (requests_get (length (net_calls w)) u) as [r|].
    + destruct (Hfirst _ _ Hrun) as (-> & -> & -> & ->). apply accessors_holding.
    + destruct (Hfirst _ _ Hrun) as (-> & -> & -> & ->). apply accessors_failed.
Qed.

(** X6: a cache is shared. After one object fetched a url, another new
    object for that url with the same cache adopts the stored response
    without a network call, whatever the network would answer then. *)
Theorem retrieve_shares_cache (other : nat -> string -> option Response.t)
    (u : string) (c : nat) (w : World) (r : Response.t) :
  dicts w c !! u = None ->
  requests_get (length (net_calls w)) u = Some r ->
  let w1 := snd (retrieve requests_get (init u (Some c)) w) in
  net_calls w1 = (net_calls w ++ [u])%list /\
  dicts w1 c !! u = Some r /\
  retrieve other (init u (Some c)) w1 = (Ok tt, holding u (Some c) r, w1).
Proof.
  intros Hmiss Hget. rewrite retrieve_with_cache, Hmiss, Hget. simpl.
  split; [reflexivity|]. split; [apply lookup_after_setitem|].
  unfold init, holding. apply retrieve_hit. apply lookup_after_setitem.
Qed.

(** X7: what [retrieve] leaves alone, whatever it starts from and however
    it ends: the url and the cache of the object, the files, every cache
    entry other than the one of its own url in its own cache; and it calls
    the network at most once, for its own url. *)
Theorem retrieve_frame (self : t) (w : World) :
  let after := retrieve requests_get self w in
  url (snd (fst after)) = url self /\
  cache (snd (fst after)) = cache self /\
  files (snd after) = files w /\
  (net_calls (snd after) = net_calls w \/
   net_calls (snd after) = (net_calls w ++ [url self])%list) /\
  forall c' u', cache self <> Some c' \/ u' <> url self ->
    dicts (snd after) c' !! u' = dicts w c' !! u'.
Proof.
  destruct self as [u c resp succ]. simpl.
  destruct (match c with Some d => dicts w d !! u | None => None end)
    as [r|] eqn:Hlook.
  - destruct c as [d|]; [|discriminate Hlook].
    rewrite (retrieve_hit requests_get _ _ _ _ _ _ Hlook). simpl. auto 6.
  - destruct (requests_get (length (net_calls w)) u) as [r|] eqn:Hget.
    + destruct c as [d|].
      * rewrite (retrieve_stored requests_get _ _ _ _ _ _ Hlook Hget). simpl.
        repeat split; auto.
        intros c' u' Hother. destruct (decide (c' = d)) as [->|Hc]; [|reflexivity].
        destruct Hother as [Hc|Hu]; [congruence|].
        apply lookup_insert_ne. congruence.
      * rewrite (retrieve_type_error requests_get _ _ _ _ _ Hget). simpl. auto 6.
    + rewrite (retrieve_failed requests_get _ _ _ _ _ Hlook Hget). simpl. auto 6.
Qed.

(** X8: a response with a status code other than 200 is a response all
    the same. On a new object with a cache it is stored in the cache,
    [content] and [status_code] return its body and its code without
    raising, and only [success] tells: it returns [False]. *)
Theorem non_200_is_served (u : string) (c : nat) (w : World) (r : Response.t) :
  dicts w c !! u = None ->
  requests_get (length (net_calls w)) u = Some r ->
  Response.status_code r <> 200%Z ->
  let w1 := after_setitem c u r (after_call u w) in
  content requests_get (init u (Some c)) w =
    (Ok (Response.content r), holding u (Some c) r, w1) /\
  status_code requests_get (holding u (Some c) r) w1 =
    (Ok (Response.status_code r), holding u (Some c) r, w1) /\
  success requests_get (holding u (Some c) r) w1 =
    (Ok false, holding u (Some c) r, w1) /\
  dicts w1 c !! u = Some r.
Proof.
  intros Hmiss Hget Hcode w1.
  pose proof (retrieve_with_cache u c w) as Hrun. rewrite Hmiss, Hget in Hrun.
  destruct (first_access u (Some c) w _ _ Hrun) as (-> & _).
  destruct (accessors_holding u (Some c) r w1) as (Hc & Hs & _ & Hb).
  apply Z.eqb_neq in Hcode. rewrite Hcode in Hb.
  repeat split; auto. apply lookup_after_setitem.
Qed.

End RetrievalMore.

Lemma retrieve_shares_cache_witness :
  Resource.retrieve Sample.flaky (Resource.init Sample.address (Some O))
    (snd (Resource.retrieve Sample.serving (Resource.init Sample.address (Some O))
            Sample.cold)) =
  (Ok tt, Resource.holding Sample.address (Some O) Sample.page,
   snd (Resource.retrieve Sample.serving (Resource.init Sample.address (Some O))
          Sample.cold)).
Proof.
  exact (proj2 (proj2 (retrieve_shares_cache Sample.serving Sample.flaky
                         Sample.address O Sample.cold Sample.page eq_refl eq_refl))).
Defined.

Lemma non_200_is_served_witness :
  Resource.content Sample.serving_error_page
    (Resource.init Sample.address (Some O)) Sample.cold =
  (Ok [], Resource.holding Sample.address (Some O) Sample.error_page,
   after_setitem O Sample.address Sample.error_page
     (after_call Sample.address Sample.cold)) /\
  Resource.success Sample.serving_error_page
    (Resource.holding Sample.address (Some O) Sample.error_page)
    (after_setitem O Sample.address Sample.error_page
       (after_call Sample.address Sample.cold)) =
  (Ok false, Resource.holding Sample.address (Some O) Sample.error_page,
   after_setitem O Sample.address Sample.error_page
     (after_call Sample.address Sample.cold)).
Proof.
  assert (Hcode : Response.status_code Sample.error_page <> 200%Z) by discriminate.
  destruct (non_200_is_served Sample.serving_error_page Sample.address O
              Sample.cold Sample.error_page eq_refl eq_refl Hcode)
    as (Hc & _ & Hb & _).
  split; [exact Hc|exact Hb].
Defined.

(** * More of persisting *)

Section PersistMore.
Import Resource.
Variable requests_get : nat -> string -> option Response.t.
Variable urlparse : string -> ParseResult.
Variable clean_path_name : string -> string.
Variable calculate_checksum : list Byte.byte -> list Byte.byte.
Variable urlparse_raises : string -> bool.
Variable makedirs_raises : string -> World -> bool.
Variable open_raises : string -> World -> bool.

Lemma append_assoc (a b c : string) : (a +:+ b) +:+ c = a +:+ (b +:+ c).
Proof.
  induction a as [|x a IH]; [reflexivity|].
  change (String x ((a +:+ b) +:+ c) = String x (a +:+ b +:+ c)).
  rewrite IH. reflexivity.
Qed.

Lemma prefix_append (a b : string) : String.prefix a (a +:+ b) = true.
Proof.
  induction a as [|x a IH]; [destruct b; reflexivity|].
  change (String.prefix (String x a) (String x (a +:+ b)) = true).
  simpl. destruct (ascii_dec x x) as [_|Hne]; [exact IH|contradiction].
Qed.

Lemma after_write_twice (p : string) (bytes : list Byte.byte) (w : World) :
  after_write p bytes (after_write p bytes w) = after_write p bytes w.
Proof. unfold after_write. simpl. rewrite insert_insert_eq. reflexivity. Qed.

(** X9: [persist] never fetches and writes only what was retrieved with
    success: on an object that was not retrieved, on one whose attempt
    failed and on one that holds a response with a status code other than
    200 it returns without touching the object, the network, the caches or
    the files. *)
Theorem persist_writes_only_success (base_path u : string) (c : option nat)
    (w : World) :
  persist requests_get urlparse clean_path_name calculate_checksum
    urlparse_raises makedirs_raises open_raises base_path
    (init u c) w = (Ok tt, init u c, w) /\
  (forall resp,
     persist requests_get urlparse clean_path_name calculate_checksum
       urlparse_raises makedirs_raises open_raises base_path
       (failed u c resp) w = (Ok tt, failed u c resp, w)) /\
  (forall r, Response.status_code r <> 200%Z ->
     persist requests_get urlparse clean_path_name calculate_checksum
       urlparse_raises makedirs_raises open_raises base_path
       (holding u c r) w = (Ok tt, holding u c r, w)).
Proof.
  split; [reflexivity|]. split.
  - intros resp.
    apply (persist_skips requests_get urlparse clean_path_name calculate_checksum
             urlparse_raises makedirs_raises open_raises base_path u c resp w).
  - intros r Hcode.
    destruct (accessors_holding requests_get u c r w) as (_ & _ & _ & Hb).
    apply Z.eqb_neq in Hcode. rewrite Hcode in Hb.
    unfold persist, retrieved, mbind, M_bind, mret, M_ret.
    cbn -[success content persist_path]. rewrite Hb. reflexivity.
Qed.

(** X10: [persist] on an object that holds a response with status code
    200. When [urlparse] raises its [ValueError], or [os.makedirs] or [open]
    an [OSError], that exception comes out and nothing is written.
    Otherwise the file at the path derived from the url holds the body of
    the response afterwards, the object is as it was and nothing was
    fetched; and persisting it a second time, the three calls going through
    again, changes nothing more. *)
Theorem persist_writes_body (base_path u : string) (c : option nat)
    (r : Response.t) (w : World) :
  Response.status_code r = 200%Z ->
  let p := persist_path urlparse clean_path_name calculate_checksum base_path u in
  let w1 := after_write p (Response.content r) w in
  persist requests_get urlparse clean_path_name calculate_checksum
    urlparse_raises makedirs_raises open_raises base_path (holding u c r) w =
    (if urlparse_raises u then (Raise ValueError, holding u c r, w)
     else if makedirs_raises (PyStr.os_path_dirname p) w
          then (Raise OSError, holding u c r, w)
     else if open_raises p w then (Raise OSError, holding u c r, w)
     else (Ok tt, holding u c r, w1)) /\
  files w1 !! p = Some (Response.content r) /\
  net_calls w1 = net_calls w /\
  (urlparse_raises u = false ->
   makedirs_raises (PyStr.os_path_dirname p) w1 = false ->
   open_raises p w1 = false ->
   persist requests_get urlparse clean_path_name calculate_checksum
     urlparse_raises makedirs_raises open_raises base_path (holding u c r) w1 =
   (Ok tt, holding u c r, w1)).
Proof.
  intros Hcode p w1.
  pose proof (persist_holding requests_get urlparse clean_path_name
                calculate_checksum urlparse_raises makedirs_raises open_raises
                base_path u c r w Hcode) as Hw.
  pose proof (persist_holding requests_get urlparse clean_path_name
                calculate_checksum urlparse_raises makedirs_raises open_raises
                base_path u c r w1 Hcode) as Hw1.
  cbv zeta in Hw, Hw1. fold p in Hw, Hw1.
  split; [exact Hw|]. split; [|split; [reflexivity|]].
  - unfold w1, after_write. simpl. apply lookup_insert_eq.
  - intros Hparse Hdirs Hopen. rewrite Hw1, Hparse, Hdirs, Hopen.
    unfold w1. rewrite after_write_twice. reflexivity.
Qed.

(** X11: the name a resource is stored under is never empty and never
    longer than 200 characters, or 106 characters and the hex digest; a
    derived name of up to 200 characters, 200 included, is used as it is. *)
Theorem persist_name_bounded (u : string) :
  let name := derived_name urlparse clean_path_name u in
  let stored := persist_path_name urlparse clean_path_name calculate_checksum u in
  1 <= String.length stored /\
  (String.length stored <= 200 \/
   String.length stored =
     106 + 2 * length (calculate_checksum (PyStr.encode name))) /\
  (String.length name <= 200 -> stored = name).
Proof.
  intros name stored.
  assert (Hname : 1 <= String.length name).
  { unfold name, derived_name.
    destruct (clean_path_name (PyStr.drop 1 (path (urlparse u)))); simpl; lia. }
  assert (Hshort : String.length name <= 200 -> stored = name).
  { intros Hle. unfold stored, persist_path_name. fold name.
    replace (200 <? String.length name)%nat with false; [reflexivity|].
    symmetry. apply Nat.ltb_ge. exact Hle. }
  destruct (le_lt_dec (String.length name) 200) as [Hle|Hgt].
  - rewrite (Hshort Hle). auto.
  - assert (Hlen : String.length stored =
                     106 + 2 * length (calculate_checksum (PyStr.encode name))).
    { unfold stored, persist_path_name. fold name.
      replace (200 <? String.length name)%nat with true
        by (symmetry; apply Nat.ltb_lt; exact Hgt).
      cbn [PyStr.join].
      rewrite !length_append, length_take, length_last, length_hex.
      cbn [String.length]. lia. }
    split; [lia|]. split; [right; exact Hlen|exact Hshort].
Qed.

(** X12: where the file goes. When neither the directory of scheme and
    host nor the stored name starts with a slash, the path starts with the
    base path, so that the file lands below it; a stored name that starts
    with a slash is itself the path, whatever the base path is. *)
Theorem persist_path_below_base (base_path u : string) :
  let dir := PyStr.join "_" [scheme (urlparse u); netloc (urlparse u)] in
  let stored := persist_path_name urlparse clean_path_name calculate_checksum u in
  let p := persist_path urlparse clean_path_name calculate_checksum base_path u in
  (PyStr.startswith "/" dir = false -> PyStr.startswith "/" stored = false ->
   PyStr.startswith base_path p = true) /\
  (PyStr.startswith "/" stored = true -> p = stored).
Proof.
  intros dir stored p. unfold p, persist_path, PyStr.os_path_join.
  fold dir. fold stored. cbn [fold_left]. split.
  - intros Hdir Hstored. rewrite Hdir, Hstored. unfold PyStr.startswith.
    destruct (negb (PyStr.truthy base_path) || PyStr.endswith "/" base_path);
      match goal with
      | |- context [if ?b then _ else _] => destruct b
      end;
      rewrite ?append_assoc; apply prefix_append.
  - intros Hstored. rewrite Hstored. reflexivity.
Qed.

End PersistMore.

Lemma persist_writes_body_witness :
  Resource.persist Sample.serving Sample.path_only Sample.keep_all
    Sample.short_checksum Sample.unbalanced_bracket Sample.permits
    Sample.permits "/var/cache"
    (Resource.holding "/index.html" None Sample.page) Sample.cold =
  (Ok tt, Resource.holding "/index.html" None Sample.page,
   after_write "/var/cache/http_h/index.html" Sample.body Sample.cold) /\
  Resource.persist Sample.serving Sample.path_only Sample.keep_all
    Sample.short_checksum Sample.unbalanced_bracket Sample.permits
    Sample.refuses "/var/cache"
    (Resource.holding "/dir/" None Sample.page) Sample.cold =
  (Raise OSError, Resource.holding "/dir/" None Sample.page, Sample.cold) /\
  Resource.persist Sample.serving Sample.path_only Sample.keep_all
    Sample.short_checksum Sample.unbalanced_bracket Sample.permits
    Sample.permits "/var/cache"
    (Resource.holding "http://[x" None Sample.page) Sample.cold =
  (Raise ValueError, Resource.holding "http://[x" None Sample.page, Sample.cold).
Proof.
  split; [|split].
  - exact (proj1 (persist_writes_body Sample.serving Sample.path_only
                    Sample.keep_all Sample.short_checksum
                    Sample.unbalanced_bracket Sample.permits Sample.permits
                    "/var/cache" "/index.html" None Sample.page Sample.cold
                    eq_refl)).
  - exact (proj1 (persist_writes_body Sample.serving Sample.path_only
                    Sample.keep_all Sample.short_checksum
                    Sample.unbalanced_bracket Sample.permits Sample.refuses
                    "/var/cache" "/dir/" None Sample.page Sample.cold eq_refl)).
  - exact (proj1 (persist_writes_body Sample.serving Sample.path_only
                    Sample.keep_all Sample.short_checksum
                    Sample.unbalanced_bracket Sample.permits Sample.permits
                    "/var/cache" "http://[x" None Sample.page Sample.cold
                    eq_refl)).
Defined.

Lemma persist_path_below_base_witness :
  PyStr.startswith "/var/cache"
    (Resource.persist_path Sample.path_only Sample.keep_all Sample.short_checksum
       "/var/cache" "/a/b.html") = true /\
  Resource.persist_path Sample.path_only Sample.keep_all Sample.short_checksum
    "/var/cache" "//etc/hosts" = "/etc/hosts".
Proof.
  destruct (persist_path_below_base Sample.path_only Sample.keep_all
              Sample.short_checksum "/var/cache" "/a/b.html") as [Hbelow _].
  destruct (persist_path_below_base Sample.path_only Sample.keep_all
              Sample.short_checksum "/var/cache" "//etc/hosts") as [_ Habs].
  split; [apply Hbelow; reflexivity|apply Habs; reflexivity].
Defined.

(** * More of the extraction *)

Section SetMore.
Context {A : Type} `{EqDecision A}.

Lemma NoDup_set_add (a : A) (s : list A) : NoDup s -> NoDup (PySet.add a s).
Proof.
  intros Hs. destruct (decide (a ∈ s)) as [Hin|Hout].
  - rewrite add_member by assumption. exact Hs.
  - rewrite add_not_member by assumption.
    apply NoDup_app. split; [exact Hs|]. split.
    + intros x Hx Hx'. apply list_elem_of_singleton in Hx'. subst. contradiction.
    + apply NoDup_singleton.
Qed.

Lemma NoDup_set_update (s l : list A) : NoDup s -> NoDup (PySet.update s l).
Proof.
  unfold PySet.update. revert s.
  induction l as [|a l IH]; intros s Hs; simpl; [exact Hs|].
  apply IH. apply NoDup_set_add. exact Hs.
Qed.

End SetMore.

Section ExtractMore.
Import Resource.
Variable retrieve_packages_by_name : string -> list SoftwarePackage.
Variable retrieve_versions : SoftwarePackage -> list SoftwareVersion.

Lemma split_from_spaces (s : string) :
  forallb PyStr.is_space (list_ascii_of_string s) = true ->
  PyStr.split_from "" s = [].
Proof.
  induction s as [|c s IH]; simpl; [reflexivity|].
  intros Hall. apply andb_true_iff in Hall as [Hc Hs].
  rewrite Hc. simpl. apply IH. exact Hs.
Qed.

Lemma update_all_one_token (first : string) (matches : list SoftwarePackage)
    (result : list SoftwareVersion) :
  exists result',
    update_all retrieve_versions [first] matches result = Some result' /\
    forall v, v ∈ result' <->
      v ∈ result \/ exists pkg, pkg ∈ matches /\ v ∈ retrieve_versions pkg.
Proof.
  revert result. induction matches as [|pkg matches IH]; intros result.
  - exists result. split; [reflexivity|]. intros v. split; [auto|].
    intros [Hv|[pkg [Hpkg _]]]; [exact Hv|]. apply elem_of_nil in Hpkg. destruct Hpkg.
  - cbn [update_all matching_versions_of].
    destruct (IH (PySet.update result (retrieve_versions pkg)))
      as [result' [Hrun Hres]].
    exists result'. split; [exact Hrun|]. intros v.
    rewrite Hres, elem_of_update. split.
    + intros [[Hv|Hv]|[p [Hp Hv]]]; auto.
      * right. exists pkg. split; [apply elem_of_cons; auto|exact Hv].
      * right. exists p. split; [apply elem_of_cons; auto|exact Hv].
    + intros [Hv|[p [Hp Hv]]]; auto.
      apply elem_of_cons in Hp as [->|Hp]; [auto|]. right. exists p. auto.
Qed.

Lemma update_all_rest_irrelevant (first second : string) (rest rest' : list string)
    (matches : list SoftwarePackage) (result : list SoftwareVersion) :
  update_all retrieve_versions (first :: second :: rest) matches result =
  update_all retrieve_versions (first :: second :: rest') matches result.
Proof.
  revert result. induction matches as [|pkg matches IH]; intros result;
    [reflexivity|].
  cbn [update_all matching_versions_of].
  destruct (narrow second (retrieve_versions pkg) (retrieve_versions pkg))
    as [m|]; [|reflexivity].
  destruct (negb (PySet.truthy m)); apply IH.
Qed.

Lemma update_all_NoDup (components : list string) (matches : list SoftwarePackage)
    (result result' : list SoftwareVersion) :
  update_all retrieve_versions components matches result = Some result' ->
  NoDup result -> NoDup result'.
Proof.
  revert result. induction matches as [|pkg matches IH]; intros result Hrun Hnd.
  - injection Hrun as <-. exact Hnd.
  - cbn [update_all] in Hrun.
    destruct (matching_versions_of retrieve_versions components pkg) as [m|];
      [|discriminate Hrun].
    apply (IH _ Hrun). apply NoDup_set_update. exact Hnd.
Qed.

(** X13: without a reliable generator tag nothing is extracted: no tag or
    several tags, a tag without a [content] attribute, and a tag whose
    content is empty or all whitespace each give the empty set. *)
Theorem generator_tag_without_signal (generator_tags : list (option string))
    (generator_tag : string) :
  (length generator_tags <> 1 ->
   _extract_generator_tag retrieve_packages_by_name retrieve_versions
     generator_tags = Some []) /\
  _extract_generator_tag retrieve_packages_by_name retrieve_versions [None]
    = Some [] /\
  (forallb PyStr.is_space (list_ascii_of_string generator_tag) = true ->
   _extract_generator_tag retrieve_packages_by_name retrieve_versions
     [Some generator_tag] = Some []).
Proof.
  split; [|split].
  - intros Hlen. destruct generator_tags as [|tag [|tag' tags]]; try reflexivity.
    contradiction Hlen. reflexivity.
  - reflexivity.
  - intros Hall. unfold _extract_generator_tag.
    destruct (negb (PyStr.truthy generator_tag)); [reflexivity|].
    unfold PyStr.split. rewrite (split_from_spaces _ Hall). reflexivity.
Qed.

(** X14: a generator tag of one token gives every version of every package
    found under that name; nothing is narrowed. *)
Theorem generator_tag_one_token (generator_tag first : string) :
  PyStr.split generator_tag = [first] ->
  exists result,
    _extract_generator_tag retrieve_packages_by_name retrieve_versions
      [Some generator_tag] = Some result /\
    forall v, v ∈ result <->
      exists pkg, pkg ∈ retrieve_packages_by_name first /\
                  v ∈ retrieve_versions pkg.
Proof.
  intros Hsplit. unfold _extract_generator_tag.
  assert (Htruthy : PyStr.truthy generator_tag = true).
  { destruct generator_tag; [discriminate Hsplit|reflexivity]. }
  rewrite Htruthy, Hsplit. simpl negb. cbv iota.
  destruct (update_all_one_token first (retrieve_packages_by_name first) [])
    as [result [Hrun Hres]].
  exists result. split; [exact Hrun|]. intros v. rewrite Hres. split.
  - intros [Hv|Hv]; [apply elem_of_nil in Hv; destruct Hv|exact Hv].
  - auto.
Qed.

(** X15: only the first two tokens of the generator tag count: two
    contents that agree on them give the same result. *)
Theorem generator_tag_ignores_rest (tag tag' first second : string)
    (rest rest' : list string) :
  PyStr.split tag = first :: second :: rest ->
  PyStr.split tag' = first :: second :: rest' ->
  _extract_generator_tag retrieve_packages_by_name retrieve_versions [Some tag] =
  _extract_generator_tag retrieve_packages_by_name retrieve_versions [Some tag'].
Proof.
  intros Hsplit Hsplit'. unfold _extract_generator_tag.
  assert (Htruthy : PyStr.truthy tag = true)
    by (destruct tag; [discriminate Hsplit|reflexivity]).
  assert (Htruthy' : PyStr.truthy tag' = true)
    by (destruct tag'; [discriminate Hsplit'|reflexivity]).
  rewrite Htruthy, Htruthy', Hsplit, Hsplit'. simpl negb. cbv iota.
  apply update_all_rest_irrelevant.
Qed.

Hypothesis versions_are_sets : forall pkg, NoDup (retrieve_versions pkg).

(** X16: whatever the tags are, the extraction returns (the [remove] of
    the narrowing never fails), its result is a set, and every version in
    it is a version of a package that the backend found under the first
    token of the tag's content. *)
Theorem generator_tag_sound (generator_tags : list (option string)) :
  exists result,
    _extract_generator_tag retrieve_packages_by_name retrieve_versions
      generator_tags = Some result /\
    NoDup result /\
    forall v, v ∈ result ->
      exists generator_tag first others pkg,
        generator_tags = [Some generator_tag] /\
        PyStr.split generator_tag = first :: others /\
        pkg ∈ retrieve_packages_by_name first /\
        v ∈ retrieve_versions pkg.
Proof.
  assert (Hempty : exists result : list SoftwareVersion,
            Some [] = Some result /\ NoDup result /\
            forall v, v ∈ result ->
              exists generator_tag first others pkg,
                generator_tags = [Some generator_tag] /\
                PyStr.split generator_tag = first :: others /\
                pkg ∈ retrieve_packages_by_name first /\
                v ∈ retrieve_versions pkg).
  { exists []. split; [reflexivity|]. split; [apply NoDup_nil; exact I|].
    intros v Hv. apply elem_of_nil in Hv. destruct Hv. }
  unfold _extract_generator_tag.
  destruct generator_tags as [|[tag|] [|tag' tags]]; try exact Hempty.
  destruct (negb (PyStr.truthy tag)); [exact Hempty|].
  destruct (PyStr.split tag) as [|first [|second rest]] eqn:Hsplit;
    [exact Hempty| |].
  - cbv zeta.
    destruct (update_all_one_token first (retrieve_packages_by_name first) [])
      as [result [Hrun Hres]].
    exists result. split; [exact Hrun|]. split.
    + apply (update_all_NoDup _ _ _ _ Hrun). apply NoDup_nil. exact I.
    + intros v Hv. apply Hres in Hv as [Hv|[pkg [Hpkg Hv]]];
        [apply elem_of_nil in Hv; destruct Hv|].
      exists tag, first, [], pkg. auto.
  - cbv zeta.
    destruct (update_all_spec retrieve_packages_by_name retrieve_versions
                versions_are_sets first second rest
                (retrieve_packages_by_name first) [])
      as [result [Hrun Hres]].
    exists result. split; [exact Hrun|]. split.
    + apply (update_all_NoDup _ _ _ _ Hrun). apply NoDup_nil. exact I.
    + intros v Hv. apply Hres in Hv as [Hv|[pkg [Hpkg Hv]]];
        [apply elem_of_nil in Hv; destruct Hv|].
      exists tag, first, (second :: rest), pkg. repeat split; auto.
      apply (elem_of_spec_versions_for retrieve_versions) in Hv.
      destruct Hv as [[Hv _]|[Hv _]]; exact Hv.
Qed.

End ExtractMore.

Lemma generator_tag_without_signal_witness :
  Resource._extract_generator_tag Sample.packages_by_name Sample.versions_of
    [Some "WordPress 5.4"; Some "WordPress 5.5"] = Some [] /\
  Resource._extract_generator_tag Sample.packages_by_name Sample.versions_of
    [Some "   "] = Some [].
Proof.
  destruct (generator_tag_without_signal Sample.packages_by_name Sample.versions_of
              [Some "WordPress 5.4"; Some "WordPress 5.5"] "   ")
    as (Hmany & _ & Hblank).
  split; [apply Hmany; discriminate|apply Hblank; reflexivity].
Defined.

Lemma generator_tag_one_token_witness :
  exists result,
    Resource._extract_generator_tag Sample.packages_by_name Sample.versions_of
      [Some " WordPress "] = Some result /\
    forall v, v ∈ result <->
      exists pkg, pkg ∈ Sample.packages_by_name "WordPress" /\
                  v ∈ Sample.versions_of pkg.
Proof.
  exact (generator_tag_one_token Sample.packages_by_name Sample.versions_of
           " WordPress " "WordPress" eq_refl).
Defined.

Lemma generator_tag_ignores_rest_witness :
  Resource._extract_generator_tag Sample.packages_by_name Sample.versions_of
    [Some "WordPress 5.4 beta 2"] =
  Resource._extract_generator_tag Sample.packages_by_name Sample.versions_of
    [Some "WordPress 5.4"].
Proof.
  exact (generator_tag_ignores_rest Sample.packages_by_name Sample.versions_of
           "WordPress 5.4 beta 2" "WordPress 5.4" "WordPress" "5.4"
           ["beta"; "2"] [] eq_refl eq_refl).
Defined.

Lemma generator_tag_sound_witness :
  exists result,
    Resource._extract_generator_tag Sample.packages_by_name Sample.versions_of
      [Some "WordPress 5"] = Some result /\
    NoDup result.
Proof.
  destruct (generator_tag_sound Sample.packages_by_name Sample.versions_of
              sample_versions_are_sets [Some "WordPress 5"])
    as [result (Hrun & Hset & _)].
  exists result. split; [exact Hrun|exact Hset].
Defined.

(** * Serializing and extracting *)

Section InformationFacts.
Import Resource.
Variable requests_get : nat -> string -> option Response.t.
Variable retrieve_packages_by_name : string -> list SoftwarePackage.
Variable retrieve_versions : SoftwarePackage -> list SoftwareVersion.
Variable Soup : Type.
Variable BeautifulSoup : list Byte.byte -> Soup.
Variable find_all_generator : Soup -> list (option string).
Variable App : Type.
Variable wappalyzer_apps : list App.
Variable app_software_package : App -> SoftwarePackage.
Variable app_matches : App -> Response.t -> bool.

Lemma wappalyzer_loop_holding (u : string) (c : option nat) (r : Response.t)
    (w : World) (apps : list App) (version_matches : list SoftwareVersion) :
  exists found,
    wappalyzer_loop retrieve_versions App app_software_package app_matches
      apps version_matches (holding u c r) w = (Ok found, holding u c r, w) /\
    forall v, v ∈ found <->
      v ∈ version_matches \/
      exists app, app ∈ apps /\ app_matches app r = true /\
                  v ∈ retrieve_versions (app_software_package app).
Proof.
  revert version_matches. induction apps as [|app apps IH]; intros version_matches.
  - exists version_matches. split; [reflexivity|]. intros v. split; [auto|].
    intros [Hv|[app [Happ _]]]; [exact Hv|]. apply elem_of_nil in Happ. destruct Happ.
  - cbn [wappalyzer_loop]. unfold mbind, M_bind, get_response. cbn [holding _response].
    destruct (app_matches app r) eqn:Hmatch.
    + destruct (IH (PySet.update version_matches
                      (retrieve_versions (app_software_package app))))
        as [found [Hrun Hmem]].
      exists found. split; [exact Hrun|]. intros v.
      rewrite Hmem, elem_of_update. split.
      * intros [[Hv|Hv]|[a [Ha Hv]]]; auto.
        -- right. exists app. split; [apply elem_of_cons; auto|auto].
        -- right. exists a. split; [apply elem_of_cons; auto|exact Hv].
      * intros [Hv|[a [Ha [Hm Hv]]]]; auto.
        apply elem_of_cons in Ha as [->|Ha]; [auto|]. right. exists a. auto.
    + destruct (IH version_matches) as [found [Hrun Hmem]].
      exists found. split; [exact Hrun|]. intros v. rewrite Hmem. split.
      * intros [Hv|[a [Ha Hv]]]; auto.
        right. exists a. split; [apply elem_of_cons; auto|exact Hv].
      * intros [Hv|[a [Ha [Hm Hv]]]]; auto.
        apply elem_of_cons in Ha as [->|Ha]; [congruence|]. right. exists a. auto.
Qed.

(** X17: [extract_information] needs a response and nothing more. On an
    object whose attempt failed it raises [RetrievalFailure] and changes
    nothing. On an object that holds a response, of whatever status code,
    it returns the versions that the generator tag gives together with all
    versions of the package of every wappalyzer app that matches the
    response, and changes nothing. *)
Theorem extract_information_result (u : string) (c : option nat) (w : World) :
  (forall resp,
     extract_information requests_get retrieve_packages_by_name retrieve_versions
       Soup BeautifulSoup find_all_generator App wappalyzer_apps
       app_software_package app_matches (failed u c resp) w =
     (Raise RetrievalFailure, failed u c resp, w)) /\
  (forall r from_tag,
     _extract_generator_tag retrieve_packages_by_name retrieve_versions
       (find_all_generator (BeautifulSoup (Response.content r))) = Some from_tag ->
     exists result,
       extract_information requests_get retrieve_packages_by_name retrieve_versions
         Soup BeautifulSoup find_all_generator App wappalyzer_apps
         app_software_package app_matches (holding u c r) w =
       (Ok result, holding u c r, w) /\
       forall v, v ∈ result <->
         v ∈ from_tag \/
         exists app, app ∈ wappalyzer_apps /\ app_matches app r = true /\
                     v ∈ retrieve_versions (app_software_package app)).
Proof.
  split.
  - intros resp.
    destruct (accessors_failed requests_get u c resp w) as (Hc & _).
    unfold extract_information, _parse, mbind, M_bind. rewrite Hc. reflexivity.
  - intros r from_tag Htag.
    destruct (accessors_holding requests_get u c r w) as (Hc & _).
    destruct (wappalyzer_loop_holding u c r w wappalyzer_apps [])
      as [found [Hloop Hfound]].
    exists (PySet.update (PySet.update [] from_tag) found). split.
    + unfold extract_information, _parse, _extract_wappalyzer_information,
        mbind, M_bind, mret, M_ret.
      rewrite Hc, Htag, Hloop. reflexivity.
    + intros v. rewrite !elem_of_update, Hfound, !elem_of_nil. tauto.
Qed.

End InformationFacts.

Section SerializeFacts.
Import Resource.
Variable requests_get : nat -> string -> option Response.t.
Variable urlparse : string -> ParseResult.
Variable urlparse_raises : string -> bool.

(** X18: after [retrieve] has returned, [serialize] changes nothing. It
    raises the [ValueError] of [urlparse] when that rejects the url;
    otherwise it returns a dictionary: with [success] false the url, the
    path of the url and [success: False]; with [success] true a status code
    besides, and that is always 200. *)
Theorem serialize_after_retrieve (self : t) (w : World) (self' : t) (w' : World) :
  retrieve requests_get self w = (Ok tt, self', w') ->
  exists ok : bool,
    success requests_get self' w' = (Ok ok, self', w') /\
    serialize requests_get urlparse urlparse_raises self' w' =
    (if urlparse_raises (url self') then Raise ValueError
     else
       Ok (if ok then
             [("url", PyStrValue (url self'));
              ("webroot_path", PyStrValue (path (urlparse (url self'))));
              ("status_code", PyIntValue 200);
              ("success", PyBoolValue true)]
           else
             [("url", PyStrValue (url self'));
              ("webroot_path", PyStrValue (path (urlparse (url self'))));
              ("success", PyBoolValue false)]),
     self', w').
Proof.
  intros Hrun.
  destruct (retrieve_returns requests_get _ _ _ _ Hrun) as [b [Hb Hresp]].
  destruct self' as [u c resp succ]. simpl in Hb, Hresp. subst succ.
  destruct b.
  - destruct (Hresp eq_refl) as [r ->].
    destruct (accessors_holding requests_get u c r w') as (_ & Hs & _ & Hok).
    unfold holding in Hs, Hok.
    exists (Response.status_code r =? 200)%Z. split; [exact Hok|].
    unfold serialize, webroot_path, get_url, mbind, M_bind, mret, M_ret, raise.
    rewrite Hok.
    destruct (Response.status_code r =? 200)%Z eqn:Hcode; cbn [negb url];
      destruct (urlparse_raises u); try reflexivity.
    + rewrite Hs, Hok. apply Z.eqb_eq in Hcode. rewrite Hcode. reflexivity.
    + rewrite Hok. reflexivity.
  - destruct (accessors_failed requests_get u c resp w') as (_ & _ & _ & Hok).
    unfold failed in Hok. exists false. split; [exact Hok|].
    unfold serialize, webroot_path, get_url, mbind, M_bind, mret, M_ret, raise.
    rewrite Hok. cbn [negb url].
    destruct (urlparse_raises u); [reflexivity|]. rewrite Hok. reflexivity.
Qed.

End SerializeFacts.
Lemma extract_information_result_witness :
  exists result,
    Resource.extract_information Sample.serving_error_page
      Sample.packages_by_name Sample.versions_of
      (list Byte.byte) (fun data => data) (fun _ => [Some "WordPress 5.4"])
      SoftwarePackage [Sample.wordpress] (fun app => app) (fun _ _ => true)
      (Resource.holding Sample.address (Some O) Sample.error_page) Sample.cold =
    (Ok result, Resource.holding Sample.address (Some O) Sample.error_page,
     Sample.cold) /\
    forall v, v ∈ result <->
      v ∈ [Sample.v54] \/
      exists app, app ∈ [Sample.wordpress] /\ true = true /\
                  v ∈ Sample.versions_of app.
Proof.
  destruct (extract_information_result Sample.serving_error_page
              Sample.packages_by_name Sample.versions_of
              (list Byte.byte) (fun data => data) (fun _ => [Some "WordPress 5.4"])
              SoftwarePackage [Sample.wordpress] (fun app => app) (fun _ _ => true)
              Sample.address (Some O) Sample.cold) as (_ & Hheld).
  exact (Hheld Sample.error_page [Sample.v54] eq_refl).
Defined.

Lemma serialize_after_retrieve_witness :
  (exists ok : bool,
     Resource.success Sample.serving
       (Resource.holding Sample.address (Some O) Sample.page) Sample.warm =
     (Ok ok, Resource.holding Sample.address (Some O) Sample.page, Sample.warm) /\
     Resource.serialize Sample.serving Sample.path_only Sample.unbalanced_bracket
       (Resource.holding Sample.address (Some O) Sample.page) Sample.warm =
     (Ok (if ok then
            [("url", Resource.PyStrValue Sample.address);
             ("webroot_path", Resource.PyStrValue Sample.address);
             ("status_code", Resource.PyIntValue 200);
             ("success", Resource.PyBoolValue true)]
          else
            [("url", Resource.PyStrValue Sample.address);
             ("webroot_path", Resource.PyStrValue Sample.address);
             ("success", Resource.PyBoolValue false)]),
      Resource.holding Sample.address (Some O) Sample.page, Sample.warm)) /\
  (exists ok : bool,
     Resource.success Sample.flaky (Resource.failed "http://[x" (Some O) None)
       (after_call "http://[x" Sample.cold) =
     (Ok ok, Resource.failed "http://[x" (Some O) None,
      after_call "http://[x" Sample.cold) /\
     Resource.serialize Sample.flaky Sample.path_only Sample.unbalanced_bracket
       (Resource.failed "http://[x" (Some O) None)
       (after_call "http://[x" Sample.cold) =
     (Raise ValueError, Resource.failed "http://[x" (Some O) None,
      after_call "http://[x" Sample.cold)).
Proof.
  split.
  - exact (serialize_after_retrieve Sample.serving Sample.path_only
             Sample.unbalanced_bracket
             (Resource.init Sample.address (Some O)) Sample.warm
             (Resource.holding Sample.address (Some O) Sample.page) Sample.warm
             eq_refl).
  - exact (serialize_after_retrieve Sample.flaky Sample.path_only
             Sample.unbalanced_bracket
             (Resource.init "http://[x" (Some O)) Sample.cold
             (Resource.failed "http://[x" (Some O) None)
             (after_call "http://[x" Sample.cold) eq_refl).
Defined.
